(** * ALS user settings ([src/als/config.py]): a shallow embedding

    The module keeps one process-wide [configparser.ConfigParser] object,
    reads [~/.als.cfg] into it at import time, prunes obsolete options and
    exposes typed getters and setters on top of two generic helpers,
    [_get] and [_set].

    The embedding has three layers:
    - Python strings and the few built-ins the module calls ([str.strip],
      [str.lower], [str.split], [int], [str]);
    - the parts of the standard library's [configparser] the module goes
      through ([ConfigParser.get] with a fallback, [ConfigParser.set],
      [options], [remove_option], [add_section], [read] and the
      [BasicInterpolation] hooks), following CPython 3.11's
      [configparser.py];
    - the functions of [config.py] and its import-time initialisation,
      and the preferences dialog of [als/ui/dialogs.py] that calls them.

    The global parser object is threaded explicitly: an operation takes the
    parser and returns either its result or the exception it raises. An
    operation that raises leaves the parser as it was (every mutation below
    happens after the last check that can raise).

    Strings are sequences of 8-bit characters read as code points; the
    character classes (white space, decimal digits, letter case) are the
    ASCII ones. *)

From stdpp Require Import gmap strings list fin_maps.
From Stdlib Require Import Ascii String ZArith DecimalString DecimalZ.

Open Scope string_scope.

(** ** Exceptions and the error monad *)

(** The exception classes of [configparser] (all derive from
    [configparser.Error]). *)
Inductive configparser_Error : Type :=
| NoSectionError (section : string)
| DuplicateSectionError (section : string)
| DuplicateOptionError (section option : string)
| ParsingError
| MissingSectionHeaderError
| InterpolationSyntaxError
| InterpolationMissingOptionError (reference : string)
| InterpolationDepthError.

(** What the module can raise. [ValueError(err)] is how the import-time
    code re-raises a parser error; [ValueError()] comes from the standard
    library. *)
Inductive exn : Type :=
| KeyError (key : string)
| ValueError (arg : option configparser_Error)
| TypeError
| OSError (strerror : string)
| Error (err : configparser_Error).

Coercion Error : configparser_Error >-> exn.

Inductive result (A : Type) : Type :=
| Ok (a : A)
| Raise (e : exn).
Arguments Ok {A} a.
Arguments Raise {A} e.

#[global] Instance result_bind : MBind result := fun A B k c =>
  match c with
  | Ok a => k a
  | Raise e => Raise e
  end.

Definition is_Ok {A} (r : result A) : Prop := exists a, r = Ok a.

(** [except ValueError], [except DuplicateOptionError] and
    [except ParsingError] match by class: [MissingSectionHeaderError]
    derives from [ParsingError]. *)
Definition is_ValueError (e : exn) : bool :=
  match e with ValueError _ => true | _ => false end.

Definition is_DuplicateOptionError (e : configparser_Error) : bool :=
  match e with DuplicateOptionError _ _ => true | _ => false end.

Definition is_ParsingError (e : configparser_Error) : bool :=
  match e with ParsingError | MissingSectionHeaderError => true | _ => false end.

(** ** Python values passed to the setters *)

Inductive pyval : Type :=
| PStr (s : string)
| PInt (n : Z)
| PBool (b : bool)
| PNone.

(** ** Strings *)

Module Str.

Definition chr (n : nat) : string := String (ascii_of_nat n) "".
Definition newline : string := chr 10.

(** [str.isspace] on ASCII: TAB..CR, FS..US and the space. *)
Definition isspace (c : ascii) : bool :=
  let n := nat_of_ascii c in
  (((9 <=? n) && (n <=? 13)) || ((28 <=? n) && (n <=? 32)))%nat.

(** C's [isspace] in the "C" locale, which [int] uses on ASCII text. *)
Definition c_isspace (c : ascii) : bool :=
  let n := nat_of_ascii c in
  (((9 <=? n) && (n <=? 13)) || (n =? 32))%nat.

Definition isdigit (c : ascii) : bool :=
  let n := nat_of_ascii c in ((48 <=? n) && (n <=? 57))%nat.

Definition digit_value (c : ascii) : Z := Z.of_nat (nat_of_ascii c - 48).

Fixpoint lstrip_by (sp : ascii -> bool) (s : string) : string :=
  match s with
  | String c r => if sp c then lstrip_by sp r else s
  | EmptyString => EmptyString
  end.

Fixpoint rstrip_by (sp : ascii -> bool) (s : string) : string :=
  match s with
  | String c r =>
      match rstrip_by sp r with
      | EmptyString => if sp c then EmptyString else String c EmptyString
      | r' => String c r'
      end
  | EmptyString => EmptyString
  end.

Definition lstrip := lstrip_by isspace.
Definition rstrip := rstrip_by isspace.
Definition strip (s : string) : string := rstrip (lstrip s).

Definition lower_char (c : ascii) : ascii :=
  let n := nat_of_ascii c in
  if ((65 <=? n) && (n <=? 90))%nat then ascii_of_nat (n + 32) else c.

Fixpoint lower (s : string) : string :=
  match s with
  | String c r => String (lower_char c) (lower r)
  | EmptyString => EmptyString
  end.

(** [c in s] for a one-character [c]. *)
Fixpoint contains (c : ascii) (s : string) : bool :=
  match s with
  | String a r => Ascii.eqb a c || contains c r
  | EmptyString => false
  end.

(** [s.find(c)]: [None] stands for [-1]. *)
Fixpoint find (c : ascii) (s : string) : option nat :=
  match s with
  | String a r => if Ascii.eqb a c then Some 0 else S <$> find c r
  | EmptyString => None
  end.

(** [s[:n]] and [s[n:]]. *)
Fixpoint take (n : nat) (s : string) : string :=
  match n, s with
  | S n', String c r => String c (take n' r)
  | _, _ => EmptyString
  end.

Fixpoint drop (n : nat) (s : string) : string :=
  match n, s with
  | S n', String _ r => drop n' r
  | _, _ => s
  end.

(** [s.startswith(c)] for a one-character [c]. *)
Definition startswith (c : ascii) (s : string) : bool :=
  match s with
  | String a _ => Ascii.eqb a c
  | EmptyString => false
  end.

(** [s.split(sep)] for a one-character [sep]: never empty. *)
Fixpoint split (sep : ascii) (s : string) : list string :=
  match s with
  | EmptyString => [EmptyString]
  | String c r =>
      if Ascii.eqb c sep then EmptyString :: split sep r
      else match split sep r with
           | seg :: segs => String c seg :: segs
           | [] => [String c EmptyString]
           end
  end.

(** [sep.join(parts)]. *)
Fixpoint join (sep : string) (parts : list string) : string :=
  match parts with
  | [] => EmptyString
  | [p] => p
  | p :: ps => p +:+ sep +:+ join sep ps
  end.

(** [s.replace("%%", "")]: occurrences are taken left to right and do
    not overlap. *)
Fixpoint remove_escaped_percent (s : string) : string :=
  match s with
  | String a r =>
      match r with
      | String b r' =>
          if Ascii.eqb a "%" && Ascii.eqb b "%"
          then remove_escaped_percent r'
          else String a (remove_escaped_percent r)
      | EmptyString => s
      end
  | EmptyString => EmptyString
  end.

(** The part of [s] before the first character satisfying [p], and the
    part after it. *)
Fixpoint break (p : ascii -> bool) (s : string) : option (string * string) :=
  match s with
  | EmptyString => None
  | String c r =>
      if p c then Some (EmptyString, r)
      else match break p r with
           | Some (before, after) => Some (String c before, after)
           | None => None
           end
  end.

(** The part of [s] before the last occurrence of [c]. *)
Fixpoint before_last (c : ascii) (s : string) : option string :=
  match s with
  | EmptyString => None
  | String a r =>
      match before_last c r with
      | Some h => Some (String a h)
      | None => if Ascii.eqb a c then Some EmptyString else None
      end
  end.

End Str.

(** ** [int(s)] and [str(n)] *)

(** The digits of a decimal literal after its first digit: single
    underscores may separate digits. [acc] is the value read so far. *)
Fixpoint int_digits (acc : Z) (s : string) : option Z :=
  match s with
  | EmptyString => Some acc
  | String c r =>
      if Str.isdigit c then int_digits (10 * acc + Str.digit_value c) r
      else if Ascii.eqb c "_" then
        match r with
        | String d r' =>
            if Str.isdigit d then int_digits (10 * acc + Str.digit_value d) r'
            else None
        | EmptyString => None
        end
      else None
  end.

Definition int_unsigned (s : string) : option Z :=
  match s with
  | String c r => if Str.isdigit c then int_digits (Str.digit_value c) r else None
  | EmptyString => None
  end.

(** [int(s)] in base 10; [None] is [ValueError]. White space around the
    literal is skipped, one sign is allowed. *)
Definition int (s : string) : option Z :=
  let s := Str.rstrip_by Str.c_isspace (Str.lstrip_by Str.c_isspace s) in
  match s with
  | String c r =>
      if Ascii.eqb c "-" then Z.opp <$> int_unsigned r
      else if Ascii.eqb c "+" then int_unsigned r
      else int_unsigned s
  | EmptyString => None
  end.

(** [str(v)] for the values a caller can hand to a setter. *)
Definition str (v : pyval) : string :=
  match v with
  | PStr s => s
  | PInt n => NilZero.string_of_int (Z.to_int n)
  | PBool true => "True"
  | PBool false => "False"
  | PNone => "None"
  end.

(** Truth value of [v] in [if v:]. *)
Definition truthy (v : pyval) : bool :=
  match v with
  | PStr s => negb (String.eqb s "")
  | PInt n => negb (Z.eqb n 0)
  | PBool b => b
  | PNone => false
  end.

(** [v != s] for a string [s]: values of another type never equal it. *)
Definition py_ne (v : pyval) (s : string) : bool :=
  match v with
  | PStr s' => negb (String.eqb s' s)
  | _ => true
  end.

(** ** [configparser]: the parser object and [BasicInterpolation] *)

(** [RawConfigParser] keeps the options of the [[DEFAULT]] section in
    [_defaults] and those of every other section in [_sections]. Option
    values are strings once a file is read ([allow_no_value] is off). *)
Record ConfigParser : Type := {
  _defaults : gmap string string;
  _sections : gmap string (gmap string string)
}.

(** [ConfigParser()]. *)
Definition new_parser : ConfigParser :=
  {| _defaults := ∅; _sections := ∅ |}.

Definition default_section : string := "DEFAULT".
Definition MAX_INTERPOLATION_DEPTH : nat := 10.

Definition optionxform (optionstr : string) : string := Str.lower optionstr.

(** [_KEYCRE.match(s)] for [_KEYCRE = re.compile(r"%\(([^)]+)\)s")]:
    the group and [m.end()]. *)
Definition KEYCRE_match (s : string) : option (string * nat) :=
  match s with
  | String a (String b r) =>
      if Ascii.eqb a "%" && Ascii.eqb b "("
      then match Str.break (fun c => Ascii.eqb c ")") r with
           | Some (name, after) =>
               if negb (String.eqb name "") && Str.startswith "s" after
               then Some (name, String.length name + 4)
               else None
           | None => None
           end
      else None
  | _ => None
  end.

(** [_KEYCRE.sub('', s)]: scanning from the left, a match is dropped and
    the scan goes on after it ([skip] counts the characters of the match
    still to drop); elsewhere the character is kept. *)
Fixpoint KEYCRE_sub (skip : nat) (s : string) : string :=
  match s with
  | EmptyString => EmptyString
  | String c r =>
      match skip with
      | S k => KEYCRE_sub k r
      | O =>
          match KEYCRE_match s with
          | Some (_, m_end) => KEYCRE_sub (m_end - 1) r
          | None => String c (KEYCRE_sub 0 r)
          end
      end
  end.

(** [BasicInterpolation.before_set]. *)
Definition before_set (value : string) : result string :=
  let tmp_value := Str.remove_escaped_percent value in
  let tmp_value := KEYCRE_sub 0 tmp_value in
  if Str.contains "%" tmp_value then Raise (ValueError None)
  else Ok value.

(** The [while rest:] loop of [BasicInterpolation._interpolate_some]. The
    pieces appended to [accum] are returned concatenated; [deeper] is the
    recursive call at [depth + 1]. Every round shortens [rest], so
    [String.length rest] rounds are enough. *)
Fixpoint interpolate_loop (deeper : string -> result string)
    (map : gmap string string) (fuel : nat) (rest : string) : result string :=
  match fuel with
  | O => Ok ""
  | S fuel =>
      if String.eqb rest "" then Ok ""
      else
        match Str.find "%" rest with
        | None => Ok rest
        | Some p =>
            let head := Str.take p rest in
            let rest := Str.drop p rest in
            let c := Str.take 1 (Str.drop 1 rest) in
            if String.eqb c "%" then
              tail ← interpolate_loop deeper map fuel (Str.drop 2 rest);
              Ok (head +:+ "%" +:+ tail)
            else if String.eqb c "(" then
              match KEYCRE_match rest with
              | None => Raise InterpolationSyntaxError
              | Some (group1, m_end) =>
                  let var := optionxform group1 in
                  let rest := Str.drop m_end rest in
                  match map !! var with
                  | None => Raise (InterpolationMissingOptionError var)
                  | Some v =>
                      expansion ← (if Str.contains "%" v then deeper v else Ok v);
                      tail ← interpolate_loop deeper map fuel rest;
                      Ok (head +:+ expansion +:+ tail)
                  end
              end
            else Raise InterpolationSyntaxError
        end
  end.

(** [_interpolate_some] at a depth with [budget] levels left:
    [budget = MAX_INTERPOLATION_DEPTH + 1 - depth], and [depth >
    MAX_INTERPOLATION_DEPTH] raises. *)
Fixpoint _interpolate_some (budget : nat) (map : gmap string string)
    (rest : string) : result string :=
  match budget with
  | O => Raise InterpolationDepthError
  | S budget =>
      interpolate_loop (_interpolate_some budget map) map (String.length rest) rest
  end.

(** [BasicInterpolation.before_get]: the call at depth 1. *)
Definition before_get (defaults : gmap string string) (value : string) : result string :=
  _interpolate_some MAX_INTERPOLATION_DEPTH defaults value.

(** [_unify_values(section, None)]: the [ChainMap] of the section's own
    options over those of [[DEFAULT]]. *)
Definition _unify_values (self : ConfigParser) (section : string)
  : result (gmap string string) :=
  match _sections self !! section with
  | Some sectiondict => Ok (sectiondict ∪ _defaults self)
  | None =>
      if String.eqb section default_section then Ok (_defaults self)
      else Raise (NoSectionError section)
  end.

(** [self.get(section, option, fallback=fallback)]. *)
Definition ConfigParser_get (self : ConfigParser) (section option fallback : string)
  : result string :=
  match _unify_values self section with
  | Raise (Error (NoSectionError _)) => Ok fallback
  | Raise e => Raise e
  | Ok d =>
      let option := optionxform option in
      match d !! option with
      | None => Ok fallback
      | Some value => before_get d value
      end
  end.

(** [ConfigParser.set]: [_validate_value_types], then
    [RawConfigParser.set]. *)
Definition ConfigParser_set (self : ConfigParser) (section option : string)
    (value : pyval) : result ConfigParser :=
  match value with
  | PStr value =>
      value ← (if String.eqb value "" then Ok value else before_set value);
      if String.eqb section "" || String.eqb section default_section then
        Ok {| _defaults := <[optionxform option := value]> (_defaults self);
              _sections := _sections self |}
      else
        match _sections self !! section with
        | None => Raise (NoSectionError section)
        | Some sectdict =>
            Ok {| _defaults := _defaults self;
                  _sections := <[section := <[optionxform option := value]> sectdict]>
                                 (_sections self) |}
        end
  | _ => Raise TypeError
  end.

Definition has_section (self : ConfigParser) (section : string) : bool :=
  bool_decide (is_Some (_sections self !! section)).

Definition add_section (self : ConfigParser) (section : string) : result ConfigParser :=
  if String.eqb section default_section then Raise (ValueError None)
  else if has_section self section then Raise (DuplicateSectionError section)
  else Ok {| _defaults := _defaults self;
             _sections := <[section := ∅]> (_sections self) |}.

(** [self.options(section)]: the keys of the section updated with those of
    [[DEFAULT]]. The order of the list is the map's, not the insertion
    order of a Python dict. *)
Definition options (self : ConfigParser) (section : string) : result (list string) :=
  match _sections self !! section with
  | None => Raise (NoSectionError section)
  | Some opts => Ok (elements (dom (opts ∪ _defaults self)))
  end.

(** [self.remove_option(section, option)]; the boolean it returns is not
    used by the module. *)
Definition remove_option (self : ConfigParser) (section option : string)
  : result ConfigParser :=
  if String.eqb section "" || String.eqb section default_section then
    Ok {| _defaults := delete (optionxform option) (_defaults self);
          _sections := _sections self |}
  else
    match _sections self !! section with
    | None => Raise (NoSectionError section)
    | Some sectdict =>
        Ok {| _defaults := _defaults self;
              _sections := <[section := delete (optionxform option) sectdict]>
                             (_sections self) |}
    end.

(** ** [configparser]: reading a file *)

(** The state of [RawConfigParser._read] between two lines. While a file
    is read an option's value is the list of its lines. [cursect] is
    always the dictionary of [sectname] ([_defaults] for [[DEFAULT]]), so
    only the name is kept; [elements_added] holds section names and
    (section, option) pairs; [e] is the [ParsingError] under
    construction. *)
Record read_state : Type := {
  r_defaults : gmap string (list string);
  r_sections : gmap string (gmap string (list string));
  elements_added : gset (string + string * string);
  sectname : option string;
  optname : option string;
  indent_level : nat;
  e : option configparser_Error
}.

Definition read_start : read_state :=
  {| r_defaults := ∅; r_sections := ∅; elements_added := ∅;
     sectname := None; optname := None; indent_level := 0; e := None |}.

(** [cursect[name] = f(cursect[name])] and [cursect[name] = v]. *)
Definition cursect_alter (f : list string -> list string) (sect name : string)
    (st : read_state) : read_state :=
  if String.eqb sect default_section then
    {| r_defaults := alter f name (r_defaults st); r_sections := r_sections st;
       elements_added := elements_added st; sectname := sectname st;
       optname := optname st; indent_level := indent_level st; e := e st |}
  else
    {| r_defaults := r_defaults st;
       r_sections := alter (alter f name) sect (r_sections st);
       elements_added := elements_added st; sectname := sectname st;
       optname := optname st; indent_level := indent_level st; e := e st |}.

Definition cursect_store (sect name : string) (v : list string)
    (st : read_state) : read_state :=
  if String.eqb sect default_section then
    {| r_defaults := <[name := v]> (r_defaults st); r_sections := r_sections st;
       elements_added := elements_added st; sectname := sectname st;
       optname := optname st; indent_level := indent_level st; e := e st |}
  else
    {| r_defaults := r_defaults st;
       r_sections := alter (insert name v) sect (r_sections st);
       elements_added := elements_added st; sectname := sectname st;
       optname := optname st; indent_level := indent_level st; e := e st |}.

(** [SECTCRE.match(value)], [SECTCRE] being [\[(?P<header>.+)\]]: the
    header runs to the last closing bracket. *)
Definition SECTCRE_match (value : string) : option string :=
  match value with
  | String c r =>
      if Ascii.eqb c "[" then
        match Str.before_last "]" r with
        | Some header => if String.eqb header "" then None else Some header
        | None => None
        end
      else None
  | EmptyString => None
  end.

(** [_optcre.match(value)] with the delimiters [=] and [:]: the groups
    [option] and [value]. The option name stops at the white space before
    the first delimiter. *)
Definition OPTCRE_match (value : string) : option (string * string) :=
  match Str.break (fun c => Ascii.eqb c "=" || Ascii.eqb c ":") value with
  | Some (name, optval) => Some (Str.rstrip name, Str.lstrip optval)
  | None => None
  end.

(** [NONSPACECRE.search(line).start()], or 0 without a match. *)
Fixpoint cur_indent_level (line : string) : nat :=
  match line with
  | String c r => if Str.isspace c then S (cur_indent_level r) else 0
  | EmptyString => 0
  end.

Definition is_comment (line : string) : bool :=
  let stripped := Str.strip line in
  Str.startswith "#" stripped || Str.startswith ";" stripped.

Definition handle_error (st : read_state) : read_state :=
  {| r_defaults := r_defaults st; r_sections := r_sections st;
     elements_added := elements_added st; sectname := sectname st;
     optname := optname st; indent_level := indent_level st;
     e := Some ParsingError |}.

(** A section header line. *)
Definition read_header (header : string) (indent : nat) (st : read_state)
  : result read_state :=
  if bool_decide (is_Some (r_sections st !! header)) then
    if bool_decide (inl header ∈ elements_added st)
    then Raise (DuplicateSectionError header)
    else Ok {| r_defaults := r_defaults st; r_sections := r_sections st;
               elements_added := {[inl header]} ∪ elements_added st;
               sectname := Some header; optname := None;
               indent_level := indent; e := e st |}
  else if String.eqb header default_section then
    Ok {| r_defaults := r_defaults st; r_sections := r_sections st;
          elements_added := elements_added st;
          sectname := Some header; optname := None;
          indent_level := indent; e := e st |}
  else
    Ok {| r_defaults := r_defaults st;
          r_sections := <[header := ∅]> (r_sections st);
          elements_added := {[inl header]} ∪ elements_added st;
          sectname := Some header; optname := None;
          indent_level := indent; e := e st |}.

(** An option line of section [sect]. *)
Definition read_option (sect name optval : string) (indent : nat)
    (st : read_state) : result read_state :=
  let st := if String.eqb name "" then handle_error st else st in
  let name := optionxform (Str.rstrip name) in
  if bool_decide (inr (sect, name) ∈ elements_added st)
  then Raise (DuplicateOptionError sect name)
  else
    let st := cursect_store sect name [Str.strip optval] st in
    Ok {| r_defaults := r_defaults st; r_sections := r_sections st;
          elements_added := {[inr (sect, name)]} ∪ elements_added st;
          sectname := Some sect; optname := Some name;
          indent_level := indent; e := e st |}.

(** The body of the [for lineno, line in enumerate(fp)] loop, with the
    defaults of the constructor: full-line comments start with [#] or
    [;], there are no inline comments, empty lines may belong to a value,
    the parser is strict. *)
Definition read_line (st : read_state) (line : string) : result read_state :=
  let value := if is_comment line then "" else Str.strip line in
  if String.eqb value "" then
    match sectname st, optname st with
    | Some sect, Some name =>
        if negb (is_comment line) && negb (String.eqb name "")
        then Ok (cursect_alter (fun l => (l ++ [""])%list) sect name st)
        else Ok st
    | _, _ => Ok st
    end
  else
    let indent := cur_indent_level line in
    let continuation :=
      match sectname st, optname st with
      | Some sect, Some name =>
          if negb (String.eqb name "") && (indent_level st <? indent)%nat
          then Some (sect, name) else None
      | _, _ => None
      end in
    match continuation with
    | Some (sect, name) => Ok (cursect_alter (fun l => (l ++ [value])%list) sect name st)
    | None =>
        match SECTCRE_match value with
        | Some header => read_header header indent st
        | None =>
            match sectname st with
            | None => Raise MissingSectionHeaderError
            | Some sect =>
                match OPTCRE_match value with
                | Some (name, optval) => read_option sect name optval indent st
                | None =>
                    let st := handle_error st in
                    Ok {| r_defaults := r_defaults st; r_sections := r_sections st;
                          elements_added := elements_added st;
                          sectname := sectname st; optname := optname st;
                          indent_level := indent; e := e st |}
                end
            end
        end
    end.

Fixpoint read_lines (st : read_state) (fp : list string) : result read_state :=
  match fp with
  | [] => Ok st
  | line :: fp => st ← read_line st line; read_lines st fp
  end.

(** [_join_multiline_values]: [val = '\n'.join(val).rstrip()]. *)
Definition join_value (val : list string) : string :=
  Str.rstrip (Str.join Str.newline val).

(** [_read(fp, fpname)] on a new parser: the lines, the joining of the
    values, and the [ParsingError] collected on the way, if any. *)
Definition _read (fp : list string) : result ConfigParser :=
  match read_lines read_start fp with
  | Raise exc => Raise exc
  | Ok st =>
      match e st with
      | Some err => Raise err
      | None =>
          Ok {| _defaults := join_value <$> r_defaults st;
                _sections := (fun options : gmap string (list string) =>
                                join_value <$> options) <$> r_sections st |}
      end
  end.

(** [ConfigParser().read(path)]. [file] is [None] when [open] raises
    [OSError] (no such file, no permission): the file is skipped. Else it
    is the list of the file's lines, without their line ends. *)
Definition ConfigParser_read (file : option (list string)) : result ConfigParser :=
  match file with
  | None => Ok new_parser
  | Some fp => _read fp
  end.

(** ** [als/config.py] *)

(** What the rest of the program sees of a call besides its result. *)
Inductive event : Type :=
| LogInfo (message : string)
| LogError (message : string)
| ErrorBox (title message : string).   (* [dialogs.error_box(title, message)] *)

(** The outcome of the [with open(_CONFIG_FILE_PATH, "w")] block of
    [save]: the file system decides. *)
Inductive write_outcome : Type :=
| Written
| WriteRaises (exc : exn).

Section Config.

(** The home directory [os.path.expanduser] finds ([$HOME], else the
    password database); [None] when there is none. *)
Variable userhome : option string.

(** [os.path.expanduser(path)] for [~] and [~/...]; the [~user] form,
    which the module does not use, is left as it is. *)
Definition expanduser (path : string) : string :=
  match path with
  | String c rest =>
      if Ascii.eqb c "~" && (String.eqb rest "" || Str.startswith "/" rest) then
        match userhome with
        | None => path
        | Some home =>
            let expanded := Str.rstrip_by (fun c => Ascii.eqb c "/") home +:+ rest in
            if String.eqb expanded "" then "/" else expanded
        end
      else path
  | EmptyString => path
  end.

Definition _SCAN_FOLDER_PATH : string := "scan_folder_path".
Definition _WORK_FOLDER_PATH : string := "work_folder_path".
Definition _LOG_LEVEL : string := "log_level".
Definition _WWW_SERVER_PORT : string := "www_server_port".
Definition _WINDOW_GEOMETRY : string := "window_geometry".

Definition _LOG_LEVEL_DEBUG : string := "DEBUG".
Definition _LOG_LEVEL_INFO : string := "INFO".
Definition _LOG_LEVEL_WARNING : string := "WARNING".
Definition _LOG_LEVEL_ERROR : string := "ERROR".
Definition _LOG_LEVEL_CRITICAL : string := "CRITICAL".

(** The values are the constants of the [logging] module. *)
Definition _LOG_LEVELS : gmap string Z :=
  <[_LOG_LEVEL_DEBUG := 10%Z]> (
  <[_LOG_LEVEL_INFO := 20%Z]> (
  <[_LOG_LEVEL_WARNING := 30%Z]> (
  <[_LOG_LEVEL_ERROR := 40%Z]> (
  <[_LOG_LEVEL_CRITICAL := 50%Z]> ∅)))).

Definition _DEFAULTS : gmap string string :=
  <[_SCAN_FOLDER_PATH := expanduser "~/als/scan"]> (
  <[_WORK_FOLDER_PATH := expanduser "~/als/work"]> (
  <[_LOG_LEVEL := "INFO"]> (
  <[_WWW_SERVER_PORT := "8000"]> (
  <[_WINDOW_GEOMETRY := "50,100,1024,800"]> ∅)))).

Definition _MAIN_SECTION_NAME : string := "main".

(** [d[key]] on a dictionary. *)
Definition getitem {V} (d : gmap string V) (key : string) : result V :=
  match d !! key with
  | Some v => Ok v
  | None => Raise (KeyError key)
  end.

(** [_get(key)]: the fallback [_DEFAULTS[key]] is evaluated first. *)
Definition _get (_CONFIG_PARSER : ConfigParser) (key : string) : result string :=
  fallback ← getitem _DEFAULTS key;
  ConfigParser_get _CONFIG_PARSER _MAIN_SECTION_NAME key fallback.

(** [_set(key, value)]. *)
Definition _set (_CONFIG_PARSER : ConfigParser) (key : string) (value : pyval)
  : result ConfigParser :=
  current ← _get _CONFIG_PARSER key;
  if py_ne value current
  then ConfigParser_set _CONFIG_PARSER _MAIN_SECTION_NAME key value
  else Ok _CONFIG_PARSER.

Definition is_debug_log_on (_CONFIG_PARSER : ConfigParser) : result bool :=
  level ← _get _CONFIG_PARSER _LOG_LEVEL;
  Ok (String.eqb level "DEBUG").

Definition set_debug_log (_CONFIG_PARSER : ConfigParser) (debug_active : pyval)
  : result ConfigParser :=
  if truthy debug_active
  then _set _CONFIG_PARSER _LOG_LEVEL (PStr _LOG_LEVEL_DEBUG)
  else _set _CONFIG_PARSER _LOG_LEVEL (PStr _LOG_LEVEL_INFO).

(** [get_www_server_port_number()]: an [int], or the string
    [_DEFAULTS[_WWW_SERVER_PORT]] when [int] raises [ValueError]. Any
    other exception of [_get] goes through. *)
Definition get_www_server_port_number (_CONFIG_PARSER : ConfigParser)
  : result pyval :=
  raw ← _get _CONFIG_PARSER _WWW_SERVER_PORT;
  match int raw with
  | Some n => Ok (PInt n)
  | None => default ← getitem _DEFAULTS _WWW_SERVER_PORT; Ok (PStr default)
  end.

Definition set_www_server_port_number (_CONFIG_PARSER : ConfigParser)
    (port_number : pyval) : result ConfigParser :=
  _set _CONFIG_PARSER _WWW_SERVER_PORT port_number.

Definition get_work_folder_path (_CONFIG_PARSER : ConfigParser) : result string :=
  _get _CONFIG_PARSER _WORK_FOLDER_PATH.

Definition set_work_folder_path (_CONFIG_PARSER : ConfigParser) (path : pyval)
  : result ConfigParser :=
  _set _CONFIG_PARSER _WORK_FOLDER_PATH path.

Definition get_scan_folder_path (_CONFIG_PARSER : ConfigParser) : result string :=
  _get _CONFIG_PARSER _SCAN_FOLDER_PATH.

Definition set_scan_folder_path (_CONFIG_PARSER : ConfigParser) (path : pyval)
  : result ConfigParser :=
  _set _CONFIG_PARSER _SCAN_FOLDER_PATH path.

(** [[int(value) for value in values]]: the first [ValueError] ends
    it. *)
Fixpoint ints (values : list string) : result (list Z) :=
  match values with
  | [] => Ok []
  | value :: values =>
      match int value with
      | None => Raise (ValueError None)
      | Some n => ns ← ints values; Ok (n :: ns)
      end
  end.

(** [get_window_geometry()]: the tuple as the list of its items. *)
Definition get_window_geometry (_CONFIG_PARSER : ConfigParser) : result (list Z) :=
  raw ← _get _CONFIG_PARSER _WINDOW_GEOMETRY;
  ints (Str.split "," raw).

Definition set_window_geometry (_CONFIG_PARSER : ConfigParser)
    (geometry_tuple : list pyval) : result ConfigParser :=
  _set _CONFIG_PARSER _WINDOW_GEOMETRY (PStr (Str.join "," (str <$> geometry_tuple))).

(** [save()]. The parser is only read, so it is handed back as it was.
    The function has no [return] statement: when it does not raise, its
    value is [None], whether the file was written or not. *)
Definition save (_CONFIG_PARSER : ConfigParser) (io : write_outcome)
  : result pyval * ConfigParser * list event :=
  match io with
  | Written =>
      (Ok PNone, _CONFIG_PARSER, [LogInfo "User configuration saved"])
  | WriteRaises (OSError os_error) =>
      (Ok PNone, _CONFIG_PARSER,
       [LogError ("Could not save settings. Error : " +:+ os_error);
        ErrorBox "Settings not saved"
                 ("Your settings could not be saved" +:+ Str.newline +:+ Str.newline
                  +:+ "Details : " +:+ os_error)])
  | WriteRaises exc => (Raise exc, _CONFIG_PARSER, [])
  end.

(** *** Import-time initialisation *)

(** The [for option in ...options(...)] loop that removes the options
    [_DEFAULTS] does not know. *)
Fixpoint cleanup (_CONFIG_PARSER : ConfigParser) (opts : list string)
  : result ConfigParser :=
  match opts with
  | [] => Ok _CONFIG_PARSER
  | option :: opts =>
      if bool_decide (option ∈ dom _DEFAULTS) then cleanup _CONFIG_PARSER opts
      else
        parser ← remove_option _CONFIG_PARSER _MAIN_SECTION_NAME option;
        cleanup parser opts
  end.

(** The dump loop: [_get(option)] is an argument of [_LOGGER.debug], so
    it is evaluated for every option whatever the log level. *)
Fixpoint dump (_CONFIG_PARSER : ConfigParser) (opts : list string)
  : result (list string) :=
  match opts with
  | [] => Ok []
  | option :: opts =>
      value ← _get _CONFIG_PARSER option;
      values ← dump _CONFIG_PARSER opts;
      Ok (value :: values)
  end.

(** The statements the module runs when it is imported, from
    [_CONFIG_PARSER = ConfigParser()] on. [file] is the content of
    [~/.als.cfg] as for [ConfigParser_read]. The result is the parser the
    functions above work on; when it raises, the import fails and there
    is no module. *)
Definition module_init (file : option (list string)) : result ConfigParser :=
  parser ←
    match ConfigParser_read file with
    | Raise (Error err) =>
        if is_DuplicateOptionError err then Raise (ValueError (Some err))
        else if is_ParsingError err then Raise (ValueError (Some err))
        else Raise err
    | r => r
    end;
  level_name ← _get parser _LOG_LEVEL;
  level ← getitem _LOG_LEVELS level_name;
  parser ←
    (if has_section parser _MAIN_SECTION_NAME then Ok parser
     else add_section parser _MAIN_SECTION_NAME);
  opts ← options parser _MAIN_SECTION_NAME;
  parser ← cleanup parser opts;
  opts ← options parser _MAIN_SECTION_NAME;
  values ← dump parser opts;
  Ok parser.

(** *** The public setters as calls *)

Inductive setter_call : Type :=
| Call_set_debug_log (debug_active : pyval)
| Call_set_www_server_port_number (port_number : pyval)
| Call_set_work_folder_path (path : pyval)
| Call_set_scan_folder_path (path : pyval)
| Call_set_window_geometry (geometry_tuple : list pyval).

Definition run_setter (call : setter_call) (_CONFIG_PARSER : ConfigParser)
  : result ConfigParser :=
  match call with
  | Call_set_debug_log b => set_debug_log _CONFIG_PARSER b
  | Call_set_www_server_port_number v => set_www_server_port_number _CONFIG_PARSER v
  | Call_set_work_folder_path v => set_work_folder_path _CONFIG_PARSER v
  | Call_set_scan_folder_path v => set_scan_folder_path _CONFIG_PARSER v
  | Call_set_window_geometry t => set_window_geometry _CONFIG_PARSER t
  end.

(** The parsers the module can hold: the one the import leaves, and the
    ones a setter that returns leaves. A setter that raises changes
    nothing. *)
Inductive reachable (file : option (list string)) : ConfigParser -> Prop :=
| reachable_init parser :
    module_init file = Ok parser -> reachable file parser
| reachable_setter parser call parser' :
    reachable file parser ->
    run_setter call parser = Ok parser' ->
    reachable file parser'.

(** The options of the [main] section. *)
Definition main_section (_CONFIG_PARSER : ConfigParser) : gmap string string :=
  default ∅ (_sections _CONFIG_PARSER !! _MAIN_SECTION_NAME).

End Config.

(** ** [als/ui/dialogs.py]: the preferences dialog *)

(** [all(p(c) for c in s)]. *)
Fixpoint all_chars (p : ascii -> bool) (s : string) : bool :=
  match s with
  | String c r => p c && all_chars p r
  | EmptyString => true
  end.

(** [s.isdigit()]: at least one character, all of them decimal digits. *)
Definition str_isdigit (s : string) : bool :=
  negb (String.eqb s "") && all_chars Str.isdigit s.

(** The widgets of [Ui_PrefsDialog] the dialog reads and writes: three
    line edits and a check box. *)
Record Ui_PrefsDialog : Type := {
  ln_scan_folder_path : string;
  ln_work_folder_path : string;
  ln_web_server_port : string;
  chk_debug_logs : bool
}.

(** How [accept] ends: [super().accept()] closes the dialog, the early
    [return] leaves it open, an exception leaves the slot. *)
Inductive accept_outcome : Type :=
| Accepted
| Returned
| Raised (exc : exn).

Section Dialogs.

Variable userhome : option string.

(** [PreferencesDialog.__init__]: the widgets as filled from the
    configuration. *)
Definition PreferencesDialog_init (_CONFIG_PARSER : ConfigParser) : result Ui_PrefsDialog :=
  scan ← get_scan_folder_path userhome _CONFIG_PARSER;
  work ← get_work_folder_path userhome _CONFIG_PARSER;
  port ← get_www_server_port_number userhome _CONFIG_PARSER;
  debug ← is_debug_log_on userhome _CONFIG_PARSER;
  Ok {| ln_scan_folder_path := scan;
        ln_work_folder_path := work;
        ln_web_server_port := str port;
        chk_debug_logs := debug |}.

Definition port_message : string :=
  "Web server port number must be a number between 1024 and 65535".

(** [PreferencesDialog.accept]. The result is how the slot ends, the
    parser it leaves (the setters that ran have had their effect, also
    when a later one raises) and what was logged or shown. Moving the
    focus to the port field is not recorded. *)
Definition PreferencesDialog_accept (_CONFIG_PARSER : ConfigParser)
    (_ui : Ui_PrefsDialog) (io : write_outcome)
  : accept_outcome * ConfigParser * list event :=
  match set_scan_folder_path userhome _CONFIG_PARSER (PStr (ln_scan_folder_path _ui)) with
  | Raise exc => (Raised exc, _CONFIG_PARSER, [])
  | Ok parser1 =>
  match set_work_folder_path userhome parser1 (PStr (ln_work_folder_path _ui)) with
  | Raise exc => (Raised exc, parser1, [])
  | Ok parser2 =>
      let web_server_port_number_str := ln_web_server_port _ui in
      let rejected :=
        (Returned, parser2,
         [ErrorBox "Wrong value" port_message;
          LogError ("Port number validation failed : " +:+ port_message)]) in
      if str_isdigit web_server_port_number_str then
        match int web_server_port_number_str with
        | None => (Raised (ValueError None), parser2, [])
        | Some n =>
            if ((1024 <=? n) && (n <=? 65535))%Z then
              match set_www_server_port_number userhome parser2
                      (PStr web_server_port_number_str) with
              | Raise exc => (Raised exc, parser2, [])
              | Ok parser3 =>
              match set_debug_log userhome parser3 (PBool (chk_debug_logs _ui)) with
              | Raise exc => (Raised exc, parser3, [])
              | Ok parser4 =>
                  match save parser4 io with
                  | (Ok _, parser5, events) => (Accepted, parser5, events)
                  | (Raise exc, parser5, events) => (Raised exc, parser5, events)
                  end
              end
              end
            else rejected
        end
      else rejected
  end
  end.

End Dialogs.

(** ** Vocabulary of the properties *)

(** The parser a first run starts with: no file, an empty [main]
    section. *)
Definition empty_parser : ConfigParser :=
  {| _defaults := ∅; _sections := {[_MAIN_SECTION_NAME := ∅]} |}.

(** A settings file with one recognized option and one obsolete one. *)
Definition file_with_obsolete_option : list string :=
  ["[main]"; "log_level = DEBUG"; "obsolete_option = 1"].

(** The [main] section exists and holds recognized keys only. *)
Definition only_recognized (userhome : option string) (parser : ConfigParser) : Prop :=
  exists sectdict,
    _sections parser !! _MAIN_SECTION_NAME = Some sectdict /\
    dom sectdict ⊆ dom (_DEFAULTS userhome).

(** A dictionary whose keys [optionxform] leaves as they are. *)
Definition lower_keys {V} (d : gmap string V) : Prop :=
  forall k, k ∈ dom d -> optionxform k = k.

(** All the dictionaries of a parser have lower-case keys. *)
Definition all_lower {V} (defaults : gmap string V)
    (sections : gmap string (gmap string V)) : Prop :=
  lower_keys defaults /\
  forall sect opts, sections !! sect = Some opts -> lower_keys opts.





(** The characters of [str(n)] for an integer [n]. *)
Definition digit_or_minus (c : ascii) : bool := Str.isdigit c || Ascii.eqb c "-".

(** [isinstance(v, str)]. *)
Definition is_str (v : pyval) : bool :=
  match v with PStr _ => true | _ => false end.

(** The key a public setter writes. *)
Definition setter_key (call : setter_call) : string :=
  match call with
  | Call_set_debug_log _ => _LOG_LEVEL
  | Call_set_www_server_port_number _ => _WWW_SERVER_PORT
  | Call_set_work_folder_path _ => _WORK_FOLDER_PATH
  | Call_set_scan_folder_path _ => _SCAN_FOLDER_PATH
  | Call_set_window_geometry _ => _WINDOW_GEOMETRY
  end.




(** * Properties *)

(** ** The standard library model on small inputs *)

Example int_examples :
  int " 12 " = Some 12%Z /\ int "-7" = Some (-7)%Z /\ int "1_0" = Some 10%Z /\
  int "1__0" = None /\ int "- 1" = None /\ int "" = None /\ int "notanumber" = None.
Proof. vm_compute. repeat split. Qed.

Example before_set_examples :
  before_set "50%" = Raise (ValueError None) /\
  before_set "a%%b" = Ok "a%%b" /\
  before_set "%(x)s y" = Ok "%(x)s y" /\
  before_set "%()s" = Raise (ValueError None).
Proof. vm_compute. repeat split. Qed.

Example before_get_examples :
  before_get ∅ "a%%b" = Ok "a%b" /\
  before_get {["x" := "1%%"]} "%(X)s y" = Ok "1% y" /\
  before_get {["x" := "%(x)s"]} "%(x)s" = Raise InterpolationDepthError /\
  before_get ∅ "%(x)s" = Raise (InterpolationMissingOptionError "x") /\
  before_get ∅ "50%" = Raise InterpolationSyntaxError.
Proof. vm_compute. repeat split. Qed.

Example _read_examples :
  _read ["[main]"; "log_level = DEBUG"; "  more"; ""; "# c"; "Obsolete: 1"; "[DEFAULT]"; "a=b"]
    = Ok {| _defaults := {["a" := "b"]};
            _sections := {["main" := {["log_level" := "DEBUG" +:+ Str.newline +:+ "more";
                                       "obsolete" := "1"]}]} |} /\
  _read ["a = 1"] = Raise MissingSectionHeaderError /\
  _read ["[m]"; "a = 1"; "A : 2"] = Raise (DuplicateOptionError "m" "a") /\
  _read ["[m]"; "a = 1"; "junk"; "b = 2"] = Raise ParsingError /\
  _read ["[m]"; "a = 1"; " junk"; "[m]"] = Raise (DuplicateSectionError "m").
Proof. vm_compute. repeat split. Qed.

(** What can stop the import besides a malformed file: an option under
    [[DEFAULT]] that is no recognized key, a log level [logging] does not
    know, a value whose interpolation fails. *)
Example module_init_examples :
  module_init None (Some ["[DEFAULT]"; "foo = 1"]) = Raise (KeyError "foo") /\
  module_init None (Some ["[main]"; "log_level = debug"]) = Raise (KeyError "debug") /\
  module_init None (Some ["[main]"; "www_server_port = 50%"])
    = Raise InterpolationSyntaxError.
Proof. vm_compute. repeat split. Qed.

(** ** Strings and interpolation *)

Lemma contains_cons c a r :
  Str.contains c (String a r) = Ascii.eqb a c || Str.contains c r.
Proof. reflexivity. Qed.

Lemma find_not_contained c s : Str.contains c s = false -> Str.find c s = None.
Proof.
  induction s as [|a r IH]; simpl; [done|].
  intros [Ha Hr]%orb_false_iff. rewrite Ha, (IH Hr). done.
Qed.

Lemma contains_remove_escaped_percent c s :
  Str.contains c s = false -> Str.contains c (Str.remove_escaped_percent s) = false.
Proof.
  enough (H : (Str.contains c s = false ->
               Str.contains c (Str.remove_escaped_percent s) = false) /\
              (forall a, Str.contains c (String a s) = false ->
                         Str.contains c (Str.remove_escaped_percent (String a s)) = false))
    by apply H.
  induction s as [|b r [IH1 IH2]].
  - split; [done|]. intros a H. exact H.
  - split; [apply IH2|].
    intros a H. rewrite contains_cons in H. apply orb_false_iff in H as [Ha Hbr].
    cbn [Str.remove_escaped_percent].
    destruct (Ascii.eqb a "%" && Ascii.eqb b "%").
    + fold (Str.remove_escaped_percent r). apply IH1.
      rewrite contains_cons in Hbr. by apply orb_false_iff in Hbr as [_ ?].
    + fold (Str.remove_escaped_percent (String b r)).
      rewrite contains_cons, Ha. simpl. by apply IH2.
Qed.

Lemma contains_KEYCRE_sub c skip s :
  Str.contains c s = false -> Str.contains c (KEYCRE_sub skip s) = false.
Proof.
  revert skip. induction s as [|a r IH]; intros skip H; [done|].
  rewrite contains_cons in H. apply orb_false_iff in H as [Ha Hr].
  cbn [KEYCRE_sub]. destruct skip as [|k]; [|by apply IH].
  destruct (KEYCRE_match (String a r)) as [[? m_end]|]; [by apply IH|].
  rewrite contains_cons, Ha. simpl. by apply IH.
Qed.

(** A value without a percent sign passes [before_set] ... *)
Lemma before_set_no_percent value :
  Str.contains "%" value = false -> before_set value = Ok value.
Proof.
  intros H. unfold before_set.
  by rewrite (contains_KEYCRE_sub _ _ _ (contains_remove_escaped_percent _ _ H)).
Qed.

(** ... and is its own interpolation. *)
Lemma before_get_no_percent defaults value :
  Str.contains "%" value = false -> before_get defaults value = Ok value.
Proof.
  intros H. unfold before_get, MAX_INTERPOLATION_DEPTH. cbn [_interpolate_some].
  destruct value as [|a r]; [done|].
  cbn [String.length interpolate_loop]. cbn [String.eqb].
  by rewrite (find_not_contained _ _ H).
Qed.

(** The loop of [_interpolate_some] is given enough rounds: more fuel
    than the length of [rest] changes nothing. *)
Lemma length_drop n s : String.length (Str.drop n s) <= String.length s.
Proof.
  revert s. induction n as [|n IH]; intros [|c r]; cbn; try lia.
  specialize (IH r). lia.
Qed.

Lemma length_drop_cons n c r :
  String.length (Str.drop (S n) (String c r)) <= String.length r.
Proof. exact (length_drop n r). Qed.

Lemma find_drop c s p :
  Str.find c s = Some p -> exists r, Str.drop p s = String c r.
Proof.
  revert p. induction s as [|a r IH]; intros p; [done|]. cbn [Str.find].
  destruct (Ascii.eqb_spec a c) as [->|].
  - intros [= <-]. by exists r.
  - destruct (Str.find c r) as [q|]; [|done]. intros [= <-]. cbn. by apply IH.
Qed.

Lemma KEYCRE_match_end s group1 m_end :
  KEYCRE_match s = Some (group1, m_end) -> exists k, m_end = S k.
Proof.
  unfold KEYCRE_match. destruct s as [|a [|b r]]; try done.
  destruct (_ && _); [|done]. destruct (Str.break _ r) as [[name after]|]; [|done].
  destruct (_ && _); [|done]. intros [= _ <-]. exists (String.length name + 3). lia.
Qed.

Lemma interpolate_loop_fuel deeper map fuel1 : forall fuel2 rest,
  String.length rest <= fuel1 -> String.length rest <= fuel2 ->
  interpolate_loop deeper map fuel1 rest = interpolate_loop deeper map fuel2 rest.
Proof.
  induction fuel1 as [|fuel1 IH]; intros fuel2 rest H1 H2.
  - destruct rest; [by destruct fuel2 | cbn in H1; lia].
  - destruct fuel2 as [|fuel2]; [destruct rest; [done | cbn in H2; lia]|].
    cbn [interpolate_loop]. destruct (String.eqb rest ""); [done|].
    destruct (Str.find "%" rest) as [p|] eqn:Hfind; [|done].
    destruct (find_drop _ _ _ Hfind) as [r Hdrop].
    pose proof (length_drop p rest) as Hp. rewrite Hdrop in *. cbn in Hp.
    destruct (String.eqb _ "%").
    { rewrite (IH fuel2); [done|..]; pose proof (length_drop_cons 1 "%" r); lia. }
    destruct (String.eqb _ "("); [|done].
    destruct (KEYCRE_match _) as [[group1 m_end]|] eqn:Hmatch; [|done].
    destruct (KEYCRE_match_end _ _ _ Hmatch) as [k ->].
    destruct (map !! _); [|done].
    rewrite (IH fuel2); [done|..]; pose proof (length_drop_cons k "%" r); lia.
Qed.

(** ** The error monad *)

Lemma bind_Ok {A B} (c : result A) (k : A -> result B) b :
  c ≫= k = Ok b -> exists a, c = Ok a /\ k a = Ok b.
Proof. destruct c as [a|exc]; [by exists a | done]. Qed.

Lemma bind_Raise {A B} (c : result A) (k : A -> result B) exc :
  c = Raise exc -> c ≫= k = Raise exc.
Proof. by intros ->. Qed.

(** ** The recognized keys *)

Section Keys.

Variable userhome : option string.

Lemma recognized_cases key :
  key ∈ dom (_DEFAULTS userhome) ->
  key = _SCAN_FOLDER_PATH \/ key = _WORK_FOLDER_PATH \/ key = _LOG_LEVEL \/
  key = _WWW_SERVER_PORT \/ key = _WINDOW_GEOMETRY.
Proof.
  unfold _DEFAULTS. rewrite !dom_insert_L, dom_empty_L.
  rewrite !elem_of_union, !elem_of_singleton, elem_of_empty. tauto.
Qed.

Lemma recognized_default key :
  key ∈ dom (_DEFAULTS userhome) -> exists default, _DEFAULTS userhome !! key = Some default.
Proof. intros H. by apply elem_of_dom in H as [default ?]; exists default. Qed.

(** The keys are in lower case already: [optionxform] keeps them. *)
Lemma recognized_optionxform key :
  key ∈ dom (_DEFAULTS userhome) -> optionxform key = key.
Proof. intros H. by destruct (recognized_cases _ H) as [->|[->|[->|[->| ->]]]]. Qed.

Lemma setter_keys_recognized :
  _SCAN_FOLDER_PATH ∈ dom (_DEFAULTS userhome) /\
  _WORK_FOLDER_PATH ∈ dom (_DEFAULTS userhome) /\
  _LOG_LEVEL ∈ dom (_DEFAULTS userhome) /\
  _WWW_SERVER_PORT ∈ dom (_DEFAULTS userhome) /\
  _WINDOW_GEOMETRY ∈ dom (_DEFAULTS userhome).
Proof.
  unfold _DEFAULTS. rewrite !dom_insert_L, dom_empty_L.
  rewrite !elem_of_union, !elem_of_singleton. tauto.
Qed.

End Keys.

(** ** [_get] and [_set] on a parser with a [main] section *)

Section Accessors.

Variable userhome : option string.

Lemma _get_main parser sec key :
  _sections parser !! _MAIN_SECTION_NAME = Some sec ->
  _get userhome parser key =
    match _DEFAULTS userhome !! key with
    | None => Raise (KeyError key)
    | Some fallback =>
        match (sec ∪ _defaults parser) !! optionxform key with
        | None => Ok fallback
        | Some value => before_get (sec ∪ _defaults parser) value
        end
    end.
Proof.
  intros Hsec. unfold _get, getitem, ConfigParser_get, _unify_values.
  destruct (_DEFAULTS userhome !! key); [|done]. cbn [mbind result_bind].
  by rewrite Hsec.
Qed.

Lemma ConfigParser_set_Ok parser section option value parser' :
  String.eqb section "" || String.eqb section default_section = false ->
  ConfigParser_set parser section option value = Ok parser' ->
  exists s sectdict,
    value = PStr s /\ _sections parser !! section = Some sectdict /\
    parser' = {| _defaults := _defaults parser;
                 _sections := <[section := <[optionxform option := s]> sectdict]>
                                (_sections parser) |}.
Proof.
  intros Hsect H. unfold ConfigParser_set in H.
  destruct value as [s| | |]; try done.
  apply bind_Ok in H as (s' & Hs' & H). rewrite Hsect in H.
  assert (s' = s) as ->.
  { destruct (String.eqb s ""); [congruence|]. unfold before_set in Hs'.
    destruct (Str.contains _ _); congruence. }
  destruct (_sections parser !! section) as [sectdict|]; [|done].
  exists s, sectdict. split; [done|]. split; [done|]. congruence.
Qed.

Lemma ConfigParser_set_no_percent parser sectdict option s :
  _sections parser !! _MAIN_SECTION_NAME = Some sectdict ->
  Str.contains "%" s = false ->
  ConfigParser_set parser _MAIN_SECTION_NAME option (PStr s) =
    Ok {| _defaults := _defaults parser;
          _sections := <[_MAIN_SECTION_NAME := <[optionxform option := s]> sectdict]>
                         (_sections parser) |}.
Proof.
  intros Hsec Hs. unfold ConfigParser_set.
  assert ((if String.eqb s "" then Ok s else before_set s) = Ok s) as ->.
  { destruct (String.eqb s ""); [done|]. by apply before_set_no_percent. }
  cbn [mbind result_bind]. by rewrite Hsec.
Qed.

(** What a [_set] that returns has done. *)
Lemma _set_Ok parser key value parser' :
  _set userhome parser key value = Ok parser' ->
  exists current,
    _get userhome parser key = Ok current /\
    (parser' = parser /\ py_ne value current = false \/
     exists s sectdict,
       value = PStr s /\ s <> current /\
       _sections parser !! _MAIN_SECTION_NAME = Some sectdict /\
       parser' = {| _defaults := _defaults parser;
                    _sections := <[_MAIN_SECTION_NAME := <[optionxform key := s]> sectdict]>
                                   (_sections parser) |}).
Proof.
  intros H. unfold _set in H. apply bind_Ok in H as (current & Hget & H).
  exists current. split; [done|].
  destruct (py_ne value current) eqn:Hne.
  - right. apply ConfigParser_set_Ok in H as (s & sectdict & -> & Hsec & ->); [|done].
    exists s, sectdict. repeat split; try done.
    intros ->. cbn in Hne. by rewrite String.eqb_refl in Hne.
  - left. split; congruence.
Qed.

(** Every public setter is a [_set] on one of the five keys. *)
Lemma run_setter_set call parser parser' :
  run_setter userhome call parser = Ok parser' ->
  exists key value,
    key ∈ dom (_DEFAULTS userhome) /\ _set userhome parser key value = Ok parser'.
Proof.
  destruct (setter_keys_recognized userhome) as (Hscan & Hwork & Hlog & Hport & Hgeo).
  destruct call as [b|v|v|v|t]; cbn [run_setter]; intros H.
  - unfold set_debug_log in H. destruct (truthy b); eauto.
  - eauto.
  - eauto.
  - eauto.
  - unfold set_window_geometry in H. eauto.
Qed.

End Accessors.


(** ** What the import and the setters keep true *)

Section Invariants.

Variable userhome : option string.

Lemma options_Ok parser section opts :
  options parser section = Ok opts ->
  exists sectdict,
    _sections parser !! section = Some sectdict /\
    opts = elements (dom (sectdict ∪ _defaults parser)).
Proof.
  unfold options. destruct (_sections parser !! section) as [sectdict|]; [|done].
  intros [= <-]. by exists sectdict.
Qed.

Lemma dump_Ok parser opts values option :
  dump userhome parser opts = Ok values ->
  option ∈ opts ->
  exists value, _get userhome parser option = Ok value.
Proof.
  revert values. induction opts as [|o opts IH]; intros values H Hin.
  - by apply elem_of_nil in Hin.
  - cbn [dump] in H. apply bind_Ok in H as (value & Hget & H).
    apply bind_Ok in H as (values' & Hdump & _).
    apply elem_of_cons in Hin as [->|Hin]; [by exists value | by eapply IH].
Qed.

Lemma _get_Ok_recognized parser key value :
  _get userhome parser key = Ok value -> key ∈ dom (_DEFAULTS userhome).
Proof.
  unfold _get, getitem. intros H. apply elem_of_dom.
  destruct (_DEFAULTS userhome !! key); [done | discriminate H].
Qed.

(** After a successful import the [main] section exists, and every
    option [options] lists for it, its own or inherited from
    [[DEFAULT]], is a recognized key with a value [_get] can return: the
    dump loop has called [_get] on each. *)
Lemma module_init_Ok file parser :
  module_init userhome file = Ok parser ->
  exists sectdict,
    _sections parser !! _MAIN_SECTION_NAME = Some sectdict /\
    forall option, option ∈ dom (sectdict ∪ _defaults parser) ->
      option ∈ dom (_DEFAULTS userhome) /\ is_Ok (_get userhome parser option).
Proof.
  intros H. unfold module_init in H.
  apply bind_Ok in H as (parser0 & _ & H).
  apply bind_Ok in H as (level_name & _ & H).
  apply bind_Ok in H as (level & _ & H).
  apply bind_Ok in H as (parser1 & _ & H).
  apply bind_Ok in H as (opts1 & _ & H).
  apply bind_Ok in H as (parser2 & _ & H).
  apply bind_Ok in H as (opts & Hopts & H).
  apply bind_Ok in H as (values & Hdump & [= <-]).
  apply options_Ok in Hopts as (sectdict & Hsec & ->).
  exists sectdict. split; [done|]. intros option Hin.
  destruct (dump_Ok _ _ _ option Hdump) as [value Hget]; [by apply elem_of_elements|].
  split; [by eapply _get_Ok_recognized | by exists value].
Qed.

(** The section a setter leaves. *)
Lemma run_setter_main call parser parser' :
  run_setter userhome call parser = Ok parser' ->
  parser' = parser \/
  exists key s sectdict,
    key ∈ dom (_DEFAULTS userhome) /\
    _get userhome parser key <> Ok s /\
    _sections parser !! _MAIN_SECTION_NAME = Some sectdict /\
    parser' = {| _defaults := _defaults parser;
                 _sections := <[_MAIN_SECTION_NAME := <[key := s]> sectdict]>
                                (_sections parser) |}.
Proof.
  intros H. apply run_setter_set in H as (key & value & Hkey & H).
  apply _set_Ok in H as (current & Hget & [[-> _]|(s & sectdict & -> & Hne & Hsec & ->)]);
    [by left|].
  right. exists key, s, sectdict. rewrite (recognized_optionxform _ _ Hkey).
  repeat split; try done. rewrite Hget. congruence.
Qed.

Lemma reachable_only_recognized file parser :
  reachable userhome file parser -> only_recognized userhome parser.
Proof.
  induction 1 as [parser Hinit | parser call parser' _ IH Hrun].
  - apply module_init_Ok in Hinit as (sectdict & Hsec & Hopts).
    exists sectdict. split; [done|]. intros option Hin.
    apply Hopts. rewrite dom_union. apply elem_of_union. by left.
  - destruct IH as (sectdict & Hsec & Hdom).
    apply run_setter_main in Hrun as [->|(key & s & sectdict' & Hkey & _ & Hsec' & ->)].
    + by exists sectdict.
    + exists (<[key := s]> sectdict'). cbn. rewrite lookup_insert_eq.
      split; [done|]. rewrite dom_insert.
      assert (sectdict' = sectdict) as -> by congruence.
      intros option [->%elem_of_singleton|Hin]%elem_of_union; [done | by apply Hdom].
Qed.


End Invariants.

(** ** The generic accessors *)

Lemma module_init_no_file userhome : module_init userhome None = Ok empty_parser.
Proof. reflexivity. Qed.

(** C1. For every recognized key, [_get] on the parser of a run without
    a settings file (empty [main] section, nothing set yet) returns the
    value [_DEFAULTS] holds for the key; the lookup does not raise. *)
Theorem C1_get_default_without_file userhome key :
  key ∈ dom (_DEFAULTS userhome) ->
  exists parser default,
    module_init userhome None = Ok parser /\
    main_section parser = ∅ /\
    _DEFAULTS userhome !! key = Some default /\
    _get userhome parser key = Ok default.
Proof.
  intros Hkey. destruct (recognized_default _ _ Hkey) as [default Hdefault].
  exists empty_parser, default. split; [apply module_init_no_file|].
  split; [done|]. split; [done|].
  rewrite (_get_main userhome empty_parser ∅) by done.
  rewrite Hdefault. cbn [_defaults empty_parser].
  by rewrite (left_id_L ∅ (∪)), lookup_empty.
Qed.

Lemma C1_witness :
  "www_server_port" ∈ dom (_DEFAULTS (Some "/home/user")) /\
  exists parser default,
    module_init (Some "/home/user") None = Ok parser /\
    main_section parser = ∅ /\
    _DEFAULTS (Some "/home/user") !! "www_server_port" = Some default /\
    _get (Some "/home/user") parser "www_server_port" = Ok default.
Proof.
  assert (H : "www_server_port" ∈ dom (_DEFAULTS (Some "/home/user"))).
  { apply elem_of_dom. exists "8000". vm_compute. reflexivity. }
  split; [exact H|]. exact (C1_get_default_without_file _ _ H).
Defined.

(** C5. [_set] with the value [_get] returns for the key, the effective
    value, gives back the parser it was given: nothing is written. The
    same holds, as far as the contents go, for [_set] with the override
    stored for the key. *)
Theorem C5_set_effective_value_is_noop userhome parser key :
  key ∈ dom (_DEFAULTS userhome) ->
  (forall current,
     _get userhome parser key = Ok current ->
     _set userhome parser key (PStr current) = Ok parser) /\
  (forall override parser',
     main_section parser !! key = Some override ->
     _set userhome parser key (PStr override) = Ok parser' ->
     parser' = parser).
Proof.
  intros Hkey. split.
  - intros current Hget. unfold _set. rewrite Hget. cbn.
    by rewrite String.eqb_refl.
  - intros override parser' Hstored H.
    apply _set_Ok in H as (current & _ & [[-> _]|(s & sectdict & [= <-] & _ & Hsec & ->)]);
      [done|].
    unfold main_section in Hstored. rewrite Hsec in Hstored. cbn in Hstored.
    rewrite (recognized_optionxform _ _ Hkey).
    rewrite (insert_id sectdict) by done. rewrite insert_id by done.
    by destruct parser.
Qed.

Lemma C5_witness :
  "log_level" ∈ dom (_DEFAULTS (Some "/home/user")) /\
  _set (Some "/home/user") empty_parser "log_level" (PStr "INFO") = Ok empty_parser.
Proof.
  assert (H : "log_level" ∈ dom (_DEFAULTS (Some "/home/user"))).
  { apply elem_of_dom. exists "INFO". vm_compute. reflexivity. }
  split; [exact H|].
  apply (proj1 (C5_set_effective_value_is_noop (Some "/home/user") empty_parser _ H)).
  vm_compute. reflexivity.
Defined.

(** C4 fails as stated: on a first run the scan folder is
    [/home/user/als/scan]; [_set] with the different value [50%] raises
    [ValueError] ([ConfigParser.set] rejects a lone percent sign), so no
    [_get] after it returns [50%]. *)
Lemma C4_counterexample :
  module_init (Some "/home/user") None = Ok empty_parser /\
  _get (Some "/home/user") empty_parser "scan_folder_path" = Ok "/home/user/als/scan" /\
  "50%" <> "/home/user/als/scan" /\
  _set (Some "/home/user") empty_parser "scan_folder_path" (PStr "50%")
    = Raise (ValueError None).
Proof. vm_compute. repeat split. discriminate. Qed.

(** An escaped percent sign is accepted by [_set], and read back
    unescaped. *)
Example set_then_get_escaped_percent :
  exists parser,
    _set (Some "/home/user") empty_parser "scan_folder_path" (PStr "a%%b") = Ok parser /\
    _get (Some "/home/user") parser "scan_folder_path" = Ok "a%b".
Proof. eexists. vm_compute. split; reflexivity. Qed.

(** C4, amended. For every recognized key and every string [v1] without
    a percent sign that differs from the value [_get] returns, [_set]
    followed by [_get] returns [v1]. *)
Theorem C4_set_then_get userhome file parser key current v1 :
  reachable userhome file parser ->
  key ∈ dom (_DEFAULTS userhome) ->
  _get userhome parser key = Ok current ->
  v1 <> current ->
  Str.contains "%" v1 = false ->
  exists parser',
    _set userhome parser key (PStr v1) = Ok parser' /\
    _get userhome parser' key = Ok v1.
Proof.
  intros Hreach Hkey Hget Hne Hpercent.
  destruct (reachable_only_recognized _ _ _ Hreach) as (sectdict & Hsec & _).
  eexists. split.
  - unfold _set. rewrite Hget. cbn [mbind result_bind py_ne].
    apply String.eqb_neq in Hne. rewrite Hne. cbn [negb].
    by apply ConfigParser_set_no_percent.
  - destruct (recognized_default _ _ Hkey) as [default Hdefault].
    erewrite _get_main; [|cbn; apply lookup_insert_eq].
    rewrite Hdefault, (recognized_optionxform _ _ Hkey). cbn [_defaults].
    erewrite lookup_union_Some_l; [|apply lookup_insert_eq].
    by apply before_get_no_percent.
Qed.

Lemma C4_witness :
  exists parser',
    _set (Some "/home/user") empty_parser "work_folder_path" (PStr "/data/work") = Ok parser' /\
    _get (Some "/home/user") parser' "work_folder_path" = Ok "/data/work".
Proof.
  apply (C4_set_then_get (Some "/home/user") None empty_parser
           "work_folder_path" "/home/user/als/work" "/data/work").
  - apply reachable_init. vm_compute. reflexivity.
  - apply elem_of_dom. exists "/home/user/als/work". vm_compute. reflexivity.
  - vm_compute. reflexivity.
  - discriminate.
  - vm_compute. reflexivity.
Defined.

(** ** Reading a file: option names are stored in lower case *)

Lemma lower_char_idempotent c : Str.lower_char (Str.lower_char c) = Str.lower_char c.
Proof. by destruct c as [[] [] [] [] [] [] [] []]. Qed.

Lemma optionxform_idempotent s : optionxform (optionxform s) = optionxform s.
Proof.
  unfold optionxform. induction s as [|c r IH]; [done|].
  cbn [Str.lower]. by rewrite lower_char_idempotent, IH.
Qed.

Lemma lower_keys_empty {V} : lower_keys (∅ : gmap string V).
Proof. intros k Hk. by rewrite dom_empty in Hk; apply elem_of_empty in Hk. Qed.

Lemma lower_keys_insert {V} (d : gmap string V) name v :
  lower_keys d -> lower_keys (<[optionxform name := v]> d).
Proof.
  intros Hd k. rewrite dom_insert.
  intros [->%elem_of_singleton|Hk]%elem_of_union;
    [apply optionxform_idempotent | by apply Hd].
Qed.

Lemma lower_keys_alter {V} (d : gmap string V) f name :
  lower_keys d -> lower_keys (alter f name d).
Proof. intros Hd k. rewrite dom_alter. apply Hd. Qed.

Lemma lower_keys_fmap {V W} (d : gmap string V) (f : V -> W) :
  lower_keys d -> lower_keys (f <$> d).
Proof. intros Hd k. rewrite dom_fmap. apply Hd. Qed.

Lemma lower_keys_delete {V} (d : gmap string V) name :
  lower_keys d -> lower_keys (delete name d).
Proof.
  intros Hd k. rewrite dom_delete. intros [Hk _]%elem_of_difference. by apply Hd.
Qed.

Lemma all_lower_alter {V} (defaults : gmap string V) sections f sect :
  (forall opts, lower_keys opts -> lower_keys (f opts)) ->
  all_lower defaults sections ->
  all_lower defaults (alter f sect sections).
Proof.
  intros Hf [Hd Hs]. split; [done|]. intros sect' opts.
  destruct (decide (sect = sect')) as [<-|Hne].
  - rewrite lookup_alter_eq. destruct (sections !! sect) as [opts0|] eqn:E; [|done].
    intros [= <-]. apply Hf. by eapply Hs.
  - rewrite lookup_alter_ne by done. apply Hs.
Qed.

Lemma cursect_alter_lower f sect name st :
  all_lower (r_defaults st) (r_sections st) ->
  all_lower (r_defaults (cursect_alter f sect name st))
            (r_sections (cursect_alter f sect name st)).
Proof.
  intros H. unfold cursect_alter. destruct (String.eqb sect default_section); cbn.
  - destruct H as [Hd Hs]. split; [by apply lower_keys_alter | done].
  - apply all_lower_alter; [|done]. intros opts. apply lower_keys_alter.
Qed.

Lemma cursect_store_lower sect name v st :
  all_lower (r_defaults st) (r_sections st) ->
  all_lower (r_defaults (cursect_store sect (optionxform name) v st))
            (r_sections (cursect_store sect (optionxform name) v st)).
Proof.
  intros H. unfold cursect_store. destruct (String.eqb sect default_section); cbn.
  - destruct H as [Hd Hs]. split; [by apply lower_keys_insert | done].
  - apply all_lower_alter; [|done]. intros opts. apply lower_keys_insert.
Qed.

Lemma read_line_lower st line st' :
  read_line st line = Ok st' ->
  all_lower (r_defaults st) (r_sections st) ->
  all_lower (r_defaults st') (r_sections st').
Proof.
  intros H Hst. unfold read_line in H.
  destruct (String.eqb _ "").
  { destruct (sectname st) as [sect|], (optname st) as [name|];
      try (by injection H as <-).
    destruct (_ && _); injection H as <-; [by apply cursect_alter_lower | done]. }
  destruct (match sectname st with Some _ => _ | None => _ end) as [[sect name]|].
  { injection H as <-. by apply cursect_alter_lower. }
  destruct (SECTCRE_match _) as [header|].
  { unfold read_header in H. repeat case_match; try done; injection H as <-; cbn; try done.
    destruct Hst as [Hd Hs]. split; [done|]. intros sect opts.
    destruct (decide (header = sect)) as [<-|Hne].
    - rewrite lookup_insert_eq. intros [= <-]. apply lower_keys_empty.
    - rewrite lookup_insert_ne by done. apply Hs. }
  destruct (sectname st) as [sect|]; [|done].
  destruct (OPTCRE_match _) as [[name optval]|]; [|by injection H as <-].
  unfold read_option in H. destruct (bool_decide _); [done|]. injection H as <-. cbn.
  apply cursect_store_lower. by destruct (String.eqb name "").
Qed.

Lemma read_lines_lower fp st st' :
  read_lines st fp = Ok st' ->
  all_lower (r_defaults st) (r_sections st) ->
  all_lower (r_defaults st') (r_sections st').
Proof.
  revert st. induction fp as [|line fp IH]; intros st H Hst; cbn in H.
  - by injection H as <-.
  - apply bind_Ok in H as (st1 & Hline & H). eapply IH; [done|].
    by eapply read_line_lower.
Qed.

Lemma ConfigParser_read_lower file parser :
  ConfigParser_read file = Ok parser ->
  all_lower (_defaults parser) (_sections parser).
Proof.
  destruct file as [fp|]; cbn.
  - unfold _read. destruct (read_lines read_start fp) as [st|] eqn:E; [|done].
    destruct (e st); [done|]. intros [= <-]. cbn.
    apply read_lines_lower in E as [Hd Hs].
    + split; [by apply lower_keys_fmap|]. intros sect opts.
      rewrite lookup_fmap. destruct (r_sections st !! sect) as [opts0|] eqn:E0; [|done].
      intros [= <-]. apply lower_keys_fmap. by eapply Hs.
    + split; [apply lower_keys_empty|]. intros sect opts. cbn.
      by rewrite lookup_empty.
  - intros [= <-]. split; [apply lower_keys_empty|]. intros sect opts. cbn.
    by rewrite lookup_empty.
Qed.

(** ** Pruning *)

Section Pruning.

Variable userhome : option string.

(** The clean-up loop deletes from [main] the listed options that
    [_DEFAULTS] does not have, and nothing else. *)
Lemma cleanup_spec opts : forall parser sectdict,
  _sections parser !! _MAIN_SECTION_NAME = Some sectdict ->
  Forall (fun option => optionxform option = option) opts ->
  exists sectdict',
    cleanup userhome parser opts =
      Ok {| _defaults := _defaults parser;
            _sections := <[_MAIN_SECTION_NAME := sectdict']> (_sections parser) |} /\
    forall k, sectdict' !! k =
      if decide (k ∈ dom (_DEFAULTS userhome)) then sectdict !! k
      else if decide (k ∈ opts) then None else sectdict !! k.
Proof.
  induction opts as [|option opts IH]; intros parser sectdict Hsec Hlower.
  - exists sectdict. split.
    + cbn. rewrite insert_id by done. by destruct parser.
    + intros k. destruct (decide _); [done|].
      destruct (decide (k ∈ [])) as [Hk|]; [by apply elem_of_nil in Hk | done].
  - apply Forall_cons in Hlower as [Hoption Hlower]. cbn [cleanup].
    destruct (bool_decide (option ∈ dom (_DEFAULTS userhome))) eqn:Hrec.
    + apply bool_decide_eq_true in Hrec.
      destruct (IH parser sectdict Hsec Hlower) as (sectdict' & -> & Hlookup).
      exists sectdict'. split; [done|]. intros k. rewrite Hlookup.
      destruct (decide (k ∈ dom _)) as [|Hk]; [done|].
      destruct (decide (k ∈ opts)) as [Hin|Hin].
      * rewrite decide_True; [done | by apply elem_of_cons; right].
      * rewrite decide_False; [done|].
        intros [->|?]%elem_of_cons; [by apply Hk | by apply Hin].
    + apply bool_decide_eq_false in Hrec.
      unfold remove_option.
      change (String.eqb _MAIN_SECTION_NAME "" ||
              String.eqb _MAIN_SECTION_NAME default_section) with false.
      cbv iota. rewrite Hsec, Hoption. cbn [mbind result_bind].
      edestruct (IH {| _defaults := _defaults parser;
                       _sections := <[_MAIN_SECTION_NAME := delete option sectdict]>
                                      (_sections parser) |})
        as (sectdict' & -> & Hlookup); [apply lookup_insert_eq | done |].
      exists sectdict'. cbn [_defaults _sections]. rewrite insert_insert_eq.
      split; [done|]. intros k. rewrite Hlookup.
      destruct (decide (k ∈ dom _)) as [Hk|Hk].
      * rewrite lookup_delete_ne; [done | by intros ->].
      * destruct (decide (k = option)) as [->|Hne].
        -- rewrite (decide_True (P := option ∈ option :: opts)) by apply list_elem_of_here.
           destruct (decide _); [done | apply lookup_delete_eq].
        -- rewrite lookup_delete_ne by done.
           destruct (decide (k ∈ opts)) as [Hin|Hin].
           ++ rewrite decide_True; [done | by apply elem_of_cons; right].
           ++ rewrite decide_False; [done|].
              intros [?|?]%elem_of_cons; [by apply Hne | by apply Hin].
Qed.

(** What a successful import keeps of the file: in [main] exactly the
    options that are recognized keys, with the values read. *)
Lemma module_init_prunes file parser0 parser :
  ConfigParser_read file = Ok parser0 ->
  module_init userhome file = Ok parser ->
  forall k,
    main_section parser !! k =
      if decide (k ∈ dom (_DEFAULTS userhome)) then main_section parser0 !! k
      else None.
Proof.
  intros Hread H k. pose proof (ConfigParser_read_lower _ _ Hread) as [Hd Hs].
  unfold module_init in H. rewrite Hread in H. cbn [mbind result_bind] in H.
  apply bind_Ok in H as (level_name & _ & H).
  apply bind_Ok in H as (level & _ & H).
  apply bind_Ok in H as (parser1 & Hparser1 & H).
  apply bind_Ok in H as (opts & Hopts & H).
  apply bind_Ok in H as (parser2 & Hclean & H).
  apply bind_Ok in H as (opts2 & _ & H).
  apply bind_Ok in H as (values & _ & [= <-]).
  assert (_sections parser1 !! _MAIN_SECTION_NAME = Some (main_section parser0) /\
          _defaults parser1 = _defaults parser0 /\ lower_keys (main_section parser0))
    as (Hsec1 & Hdef1 & Hlow1).
  { unfold main_section, add_section, has_section in *.
    destruct (_sections parser0 !! _MAIN_SECTION_NAME) as [sectdict|] eqn:E.
    - rewrite bool_decide_eq_true_2 in Hparser1 by done. injection Hparser1 as <-.
      repeat split; try done. by eapply Hs.
    - rewrite bool_decide_eq_false_2 in Hparser1 by (intros [? ?]; done).
      change (String.eqb _MAIN_SECTION_NAME default_section) with false in Hparser1.
      injection Hparser1 as <-. cbn.
      rewrite lookup_insert_eq. repeat split; first [done | apply lower_keys_empty]. }
  apply options_Ok in Hopts as (sectdict & Hsec & ->).
  assert (sectdict = main_section parser0) as -> by congruence.
  destruct (cleanup_spec (elements (dom (main_section parser0 ∪ _defaults parser1)))
              parser1 _ Hsec1) as (sectdict' & Hclean' & Hlookup).
  { apply Forall_forall. intros option Hin%elem_of_elements.
    rewrite dom_union in Hin. apply elem_of_union in Hin as [Hin|Hin].
    - by apply Hlow1.
    - apply Hd. by rewrite <- Hdef1. }
  rewrite Hclean' in Hclean. injection Hclean as <-.
  unfold main_section at 1. cbn [_sections]. rewrite lookup_insert_eq. cbn [default].
  rewrite Hlookup. destruct (decide (k ∈ dom _)); [done|].
  destruct (decide _) as [|Hin]; [done|].
  apply not_elem_of_dom. intros Hk. apply Hin, elem_of_elements.
  rewrite dom_union. apply elem_of_union. by left.
Qed.

End Pruning.

(** ** The keys of the [main] section *)

(** C6. Only recognized keys appear in the [main] section: in every
    parser the import or a public setter leaves, the section exists and
    its keys are keys of [_DEFAULTS]; the import keeps of the options read
    into [main] exactly the recognized ones, with their values; a file
    with one recognized and one unrecognized option gives a section with
    the recognized one only. *)
Theorem C6_only_recognized_keys userhome :
  (forall file parser,
     reachable userhome file parser ->
     exists sectdict,
       _sections parser !! _MAIN_SECTION_NAME = Some sectdict /\
       dom sectdict ⊆ dom (_DEFAULTS userhome)) /\
  (forall file parser0 parser,
     ConfigParser_read file = Ok parser0 ->
     module_init userhome file = Ok parser ->
     forall k,
       main_section parser !! k =
         if decide (k ∈ dom (_DEFAULTS userhome)) then main_section parser0 !! k
         else None) /\
  module_init userhome (Some file_with_obsolete_option) =
    Ok {| _defaults := ∅;
          _sections := {[_MAIN_SECTION_NAME := {[_LOG_LEVEL := "DEBUG"]}]} |}.
Proof.
  split; [|split].
  - intros file parser H. exact (reachable_only_recognized _ _ _ H).
  - intros file parser0 parser. apply module_init_prunes.
  - vm_compute. reflexivity.
Qed.

Lemma C6_witness :
  exists sectdict,
    _sections {| _defaults := ∅;
                 _sections := {[_MAIN_SECTION_NAME := {[_LOG_LEVEL := "DEBUG"]}]} |}
      !! _MAIN_SECTION_NAME = Some sectdict /\
    dom sectdict ⊆ dom (_DEFAULTS (Some "/home/user")).
Proof.
  apply (proj1 (C6_only_recognized_keys (Some "/home/user"))
           (Some file_with_obsolete_option)).
  apply reachable_init. vm_compute. reflexivity.
Defined.




(** ** Reading a malformed file *)













(** ** Loading *)




(** What the import raises on that file, and on one with a line that is
    no option. *)
Example module_init_duplicate_option :
  module_init (Some "/home/user")
    (Some ["[main]"; "log_level = DEBUG"; "# again"; "Log_Level: INFO"])
  = Raise (ValueError (Some (DuplicateOptionError "main" "log_level"))).
Proof. vm_compute. reflexivity. Qed.

Example module_init_unparsable_line :
  module_init (Some "/home/user") (Some ["[main]"; "log_level = DEBUG"; "what is this"])
  = Raise (ValueError (Some ParsingError)).
Proof. vm_compute. reflexivity. Qed.

(** ** Saving *)

(** C2 fails as stated: a [save] that cannot write the file returns
    [None], which is what a [save] that wrote it returns; the caller gets
    no failure signal. *)
Lemma C2_counterexample :
  fst (fst (save empty_parser (WriteRaises (OSError "Permission denied")))) = Ok PNone /\
  fst (fst (save empty_parser Written)) = Ok PNone.
Proof. split; reflexivity. Qed.

(** C2, amended. When writing the file raises [OSError], [save] does not
    raise: it logs the failure at error severity, shows the error dialog
    itself and returns [None], as a successful [save] does. The parser is
    untouched, so [_get] returns for every key what it returned before. *)
Theorem C2_save_failure_is_handled parser strerror :
  let outcome := save parser (WriteRaises (OSError strerror)) in
  fst (fst outcome) = Ok PNone /\
  fst (fst outcome) = fst (fst (save parser Written)) /\
  snd outcome =
    [LogError ("Could not save settings. Error : " +:+ strerror);
     ErrorBox "Settings not saved"
              ("Your settings could not be saved" +:+ Str.newline +:+ Str.newline
               +:+ "Details : " +:+ strerror)] /\
  snd (fst outcome) = parser /\
  forall userhome key,
    _get userhome (snd (fst outcome)) key = _get userhome parser key.
Proof. cbn. repeat split. Qed.

(** ** The typed getters *)




Example port_number_parsable :
  get_www_server_port_number (Some "/home/user")
    {| _defaults := ∅;
       _sections := {[_MAIN_SECTION_NAME := {[_WWW_SERVER_PORT := " 8080"]}]} |}
  = Ok (PInt 8080).
Proof. vm_compute. reflexivity. Qed.

(** C9 is what the docstring of [set_www_server_port_number] promises
    ([:type port_number: int]), and the code does not do it: an integer
    never equals the string [_get] returns, so it is handed to
    [ConfigParser.set], which raises [TypeError] on a value that is not a
    string. *)
Theorem C9_int_port_number_raises userhome n :
  module_init userhome None = Ok empty_parser /\
  set_www_server_port_number userhome empty_parser (PInt n) = Raise TypeError.
Proof. split; reflexivity. Qed.

(** [set_window_geometry] converts with [str] and stores. *)
Example set_window_geometry_stores :
  set_window_geometry (Some "/home/user") empty_parser [PInt 10; PInt 20; PInt 800; PInt 600]
  = Ok {| _defaults := ∅;
          _sections := {[_MAIN_SECTION_NAME := {[_WINDOW_GEOMETRY := "10,20,800,600"]}]} |}.
Proof. vm_compute. reflexivity. Qed.

(** *** An integer literal has no percent sign *)












Example three_segments_give_a_3_tuple :
  get_window_geometry (Some "/home/user")
    {| _defaults := ∅;
       _sections := {[_MAIN_SECTION_NAME := {[_WINDOW_GEOMETRY := "10,20,300"]}]} |}
  = Ok [10; 20; 300]%Z.
Proof. vm_compute. reflexivity. Qed.

(** * Further properties of [config.py] *)

(** ** Keys and values the generic accessors refuse *)

(** X1. A key that [_DEFAULTS] does not have makes [_get] and [_set]
    raise [KeyError], whatever the parser holds, the key itself
    included: the fallback [_DEFAULTS[key]] is evaluated before anything
    is looked up. *)
Theorem unrecognized_key_raises_KeyError userhome parser key value :
  key ∉ dom (_DEFAULTS userhome) ->
  _get userhome parser key = Raise (KeyError key) /\
  _set userhome parser key value = Raise (KeyError key).
Proof.
  intros Hkey%not_elem_of_dom. unfold _set, _get, getitem. by rewrite Hkey.
Qed.

Lemma unrecognized_key_witness :
  _get (Some "/home/user")
    {| _defaults := ∅; _sections := {[_MAIN_SECTION_NAME := {["theme" := "dark"]}]} |}
    "theme" = Raise (KeyError "theme") /\
  _set (Some "/home/user")
    {| _defaults := ∅; _sections := {[_MAIN_SECTION_NAME := {["theme" := "dark"]}]} |}
    "theme" (PStr "light") = Raise (KeyError "theme").
Proof.
  apply unrecognized_key_raises_KeyError.
  apply not_elem_of_dom. vm_compute. reflexivity.
Defined.

(** X2. The setters that pass their argument on as it is
    ([set_scan_folder_path], [set_work_folder_path],
    [set_www_server_port_number]) raise [TypeError] on every argument
    that is not a string, an integer, a boolean or [None], whenever the
    current value can be read: the argument differs from the string
    [_get] returns and [ConfigParser.set] refuses it. *)
Theorem passthrough_setters_need_a_string userhome parser call value current :
  call = Call_set_scan_folder_path value \/
  call = Call_set_work_folder_path value \/
  call = Call_set_www_server_port_number value ->
  is_str value = false ->
  _get userhome parser (setter_key call) = Ok current ->
  run_setter userhome call parser = Raise TypeError.
Proof.
  intros Hcall Hvalue Hget.
  assert (H : run_setter userhome call parser
              = _set userhome parser (setter_key call) value)
    by by destruct Hcall as [->|[->| ->]].
  rewrite H. unfold _set. rewrite Hget. cbn [mbind result_bind].
  by destruct value.
Qed.

Lemma passthrough_setters_witness :
  run_setter (Some "/home/user") (Call_set_work_folder_path PNone) empty_parser
  = Raise TypeError.
Proof.
  apply (passthrough_setters_need_a_string (Some "/home/user") empty_parser
           (Call_set_work_folder_path PNone) PNone "/home/user/als/work").
  - right. left. reflexivity.
  - reflexivity.
  - vm_compute. reflexivity.
Defined.

(** ** Where [_get] finds a value *)

(** X3. For a recognized key, [_get] serves the entry of the [main]
    section; without one, the entry of [[DEFAULT]]; without either, the
    application default. (Entries without a percent sign: they are
    returned as stored.) *)
Theorem _get_lookup_order userhome parser sectdict key :
  _sections parser !! _MAIN_SECTION_NAME = Some sectdict ->
  key ∈ dom (_DEFAULTS userhome) ->
  (forall v, sectdict !! key = Some v -> Str.contains "%" v = false ->
             _get userhome parser key = Ok v) /\
  (forall v, sectdict !! key = None -> _defaults parser !! key = Some v ->
             Str.contains "%" v = false ->
             _get userhome parser key = Ok v) /\
  (sectdict !! key = None -> _defaults parser !! key = None ->
   exists default,
     _DEFAULTS userhome !! key = Some default /\
     _get userhome parser key = Ok default).
Proof.
  intros Hsec Hkey. destruct (recognized_default _ _ Hkey) as [default Hdefault].
  rewrite (_get_main userhome parser sectdict) by done.
  rewrite Hdefault, (recognized_optionxform _ _ Hkey).
  split; [|split].
  - intros v Hv Hpercent. rewrite (lookup_union_Some_l _ _ _ _ Hv).
    by apply before_get_no_percent.
  - intros v Hnone Hv Hpercent. rewrite (lookup_union_r _ _ _ Hnone), Hv.
    by apply before_get_no_percent.
  - intros Hnone Hnone'. exists default. split; [done|].
    by rewrite (lookup_union_r _ _ _ Hnone), Hnone'.
Qed.

Lemma _get_lookup_order_witness :
  _get (Some "/home/user")
    {| _defaults := {[_LOG_LEVEL := "ERROR"]};
       _sections := {[_MAIN_SECTION_NAME := {[_WWW_SERVER_PORT := "8080"]}]} |}
    _LOG_LEVEL = Ok "ERROR".
Proof.
  refine (proj1 (proj2 (_get_lookup_order (Some "/home/user")
            {| _defaults := {[_LOG_LEVEL := "ERROR"]};
               _sections := {[_MAIN_SECTION_NAME := {[_WWW_SERVER_PORT := "8080"]}]} |}
            {[_WWW_SERVER_PORT := "8080"]} _LOG_LEVEL _ _)) "ERROR" _ _ _).
  - vm_compute. reflexivity.
  - apply elem_of_dom. exists "INFO". vm_compute. reflexivity.
  - vm_compute. reflexivity.
  - vm_compute. reflexivity.
  - vm_compute. reflexivity.
Defined.

(** ** What a setter changes *)

Lemma run_setter_key call parser userhome :
  exists value,
    run_setter userhome call parser = _set userhome parser (setter_key call) value.
Proof.
  destruct call as [b|v|v|v|t]; cbn [run_setter setter_key];
    try (eexists; reflexivity).
  unfold set_debug_log. destruct (truthy b); eauto.
Qed.

Lemma setter_key_recognized userhome call :
  setter_key call ∈ dom (_DEFAULTS userhome).
Proof.
  destruct (setter_keys_recognized userhome) as (? & ? & ? & ? & ?).
  by destruct call.
Qed.

(** X4. A public setter that returns has changed at most the entry of
    its own key in [main]: every other entry of the section, the
    [[DEFAULT]] options and every other section are as before, and no
    entry is removed. *)
Theorem setter_changes_only_its_key userhome call parser parser' :
  run_setter userhome call parser = Ok parser' ->
  _defaults parser' = _defaults parser /\
  (forall section, section <> _MAIN_SECTION_NAME ->
     _sections parser' !! section = _sections parser !! section) /\
  (forall k, k <> setter_key call ->
     main_section parser' !! k = main_section parser !! k) /\
  dom (main_section parser) ⊆ dom (main_section parser').
Proof.
  intros H. destruct (run_setter_key call parser userhome) as [value Hset].
  rewrite Hset in H.
  apply _set_Ok in H as (current & _ & [[-> _]|(s & sectdict & -> & _ & Hsec & ->)]);
    [done|].
  rewrite (recognized_optionxform userhome) by apply setter_key_recognized.
  cbn [_defaults _sections]. split; [done|]. split; [|split].
  - intros section Hne. by rewrite lookup_insert_ne.
  - intros k Hne. unfold main_section. cbn [_sections].
    rewrite lookup_insert_eq, Hsec. cbn. by rewrite lookup_insert_ne.
  - unfold main_section. cbn [_sections]. rewrite lookup_insert_eq, Hsec.
    cbn. rewrite dom_insert. apply union_subseteq_r.
Qed.

Lemma setter_changes_only_its_key_witness :
  main_section
    {| _defaults := ∅;
       _sections := {[_MAIN_SECTION_NAME :=
                        {[_LOG_LEVEL := "DEBUG"; _WWW_SERVER_PORT := "8080"]}]} |}
    !! _WWW_SERVER_PORT
  = main_section
      {| _defaults := ∅;
         _sections := {[_MAIN_SECTION_NAME := {[_WWW_SERVER_PORT := "8080"]}]} |}
      !! _WWW_SERVER_PORT.
Proof.
  assert (Hrun : run_setter (Some "/home/user") (Call_set_debug_log (PBool true))
            {| _defaults := ∅;
               _sections := {[_MAIN_SECTION_NAME := {[_WWW_SERVER_PORT := "8080"]}]} |}
          = Ok {| _defaults := ∅;
                  _sections := {[_MAIN_SECTION_NAME :=
                                   {[_LOG_LEVEL := "DEBUG"; _WWW_SERVER_PORT := "8080"]}]} |}).
  { vm_compute. reflexivity. }
  apply (proj1 (proj2 (proj2 (setter_changes_only_its_key _ _ _ _ Hrun)))).
  discriminate.
Defined.

(** ** Setting, then getting *)

(** A value without a percent sign can be set for a recognized key
    whenever the current value can be read, and is what [_get] returns
    afterwards, written or not. *)
Lemma _set_then_get userhome parser key current v :
  is_Some (_sections parser !! _MAIN_SECTION_NAME) ->
  key ∈ dom (_DEFAULTS userhome) ->
  _get userhome parser key = Ok current ->
  Str.contains "%" v = false ->
  exists parser',
    _set userhome parser key (PStr v) = Ok parser' /\
    _get userhome parser' key = Ok v /\
    is_Some (_sections parser' !! _MAIN_SECTION_NAME).
Proof.
  intros [sectdict Hsec] Hkey Hget Hpercent. unfold _set. rewrite Hget.
  cbn [mbind result_bind py_ne].
  destruct (String.eqb_spec v current) as [->|Hne]; cbn [negb].
  - exists parser. by rewrite Hsec.
  - rewrite (ConfigParser_set_no_percent _ _ _ _ Hsec Hpercent).
    eexists. split; [done|].
    destruct (recognized_default _ _ Hkey) as [default Hdefault].
    cbn [_sections]. rewrite lookup_insert_eq. split; [|done].
    erewrite _get_main; [|cbn; apply lookup_insert_eq].
    rewrite Hdefault, (recognized_optionxform _ _ Hkey). cbn [_defaults].
    erewrite lookup_union_Some_l; [|apply lookup_insert_eq].
    by apply before_get_no_percent.
Qed.

Lemma reachable_has_main userhome file parser :
  reachable userhome file parser -> is_Some (_sections parser !! _MAIN_SECTION_NAME).
Proof.
  intros (sectdict & Hsec & _)%reachable_only_recognized. by exists sectdict.
Qed.

(** X5. In every state of the module where the log level can be read,
    [set_debug_log] returns, and afterwards [is_debug_log_on] is the
    truth value of its argument; switching the debug log off makes the
    level [INFO], whatever it was. *)
Theorem set_debug_log_then_is_debug_log_on userhome file parser debug_active current :
  reachable userhome file parser ->
  _get userhome parser _LOG_LEVEL = Ok current ->
  exists parser',
    set_debug_log userhome parser debug_active = Ok parser' /\
    is_debug_log_on userhome parser' = Ok (truthy debug_active) /\
    _get userhome parser' _LOG_LEVEL
      = Ok (if truthy debug_active then "DEBUG" else "INFO").
Proof.
  intros Hreach%reachable_has_main Hget.
  destruct (setter_keys_recognized userhome) as (_ & _ & Hlog & _).
  unfold set_debug_log, is_debug_log_on.
  destruct (truthy debug_active).
  - destruct (_set_then_get userhome parser _LOG_LEVEL current "DEBUG")
      as (parser' & Hset & Hget' & _); try done.
    exists parser'. by rewrite Hget'.
  - destruct (_set_then_get userhome parser _LOG_LEVEL current "INFO")
      as (parser' & Hset & Hget' & _); try done.
    exists parser'. by rewrite Hget'.
Qed.

Lemma set_debug_log_witness :
  exists parser',
    set_debug_log (Some "/home/user")
      {| _defaults := ∅; _sections := {[_MAIN_SECTION_NAME := {[_LOG_LEVEL := "WARNING"]}]} |}
      (PBool false) = Ok parser' /\
    is_debug_log_on (Some "/home/user") parser' = Ok (truthy (PBool false)) /\
    _get (Some "/home/user") parser' _LOG_LEVEL
      = Ok (if truthy (PBool false) then "DEBUG" else "INFO").
Proof.
  apply (set_debug_log_then_is_debug_log_on (Some "/home/user")
           (Some ["[main]"; "log_level = WARNING"]) _ (PBool false) "WARNING").
  - apply reachable_init. vm_compute. reflexivity.
  - vm_compute. reflexivity.
Defined.

(** ** The window geometry *)




(** *** [int(str(n)) == n] *)

Ltac eval_digit :=
  repeat match goal with
  | |- context [Str.isdigit (Ascii ?a ?b ?c ?d ?e ?f ?g ?h)] =>
      change (Str.isdigit (Ascii a b c d e f g h)) with true
  | |- context [Str.digit_value (Ascii ?a ?b ?c ?d ?e ?f ?g ?h)] =>
      let v := eval vm_compute in (Str.digit_value (Ascii a b c d e f g h)) in
      change (Str.digit_value (Ascii a b c d e f g h)) with v
  end.

Lemma int_digits_of_uint_acc d : forall p,
  int_digits (Zpos p) (NilEmpty.string_of_uint d) = Some (Zpos (Pos.of_uint_acc d p)).
Proof.
  induction d as [|d IH|d IH|d IH|d IH|d IH|d IH|d IH|d IH|d IH|d IH]; intros p;
    [done|..];
    cbn [NilEmpty.string_of_uint int_digits Pos.of_uint_acc];
    eval_digit; cbv iota;
    (etrans; [|apply IH]); f_equal; lia.
Qed.

Lemma int_digits_of_uint d :
  int_digits 0 (NilEmpty.string_of_uint d) = Some (Z.of_N (Pos.of_uint d)).
Proof.
  induction d as [|d IH|d IH|d IH|d IH|d IH|d IH|d IH|d IH|d IH|d IH];
    [done| exact IH |..];
    cbn [NilEmpty.string_of_uint int_digits Pos.of_uint];
    eval_digit; cbv iota;
    (etrans; [|apply int_digits_of_uint_acc]); f_equal.
Qed.

Lemma int_unsigned_string_of_uint d :
  int_unsigned (NilZero.string_of_uint d) = Some (Z.of_uint d).
Proof.
  unfold Z.of_uint. rewrite <- int_digits_of_uint.
  by destruct d.
Qed.

Lemma all_chars_impl (p q : ascii -> bool) s :
  (forall c, p c = true -> q c = true) -> all_chars p s = true -> all_chars q s = true.
Proof.
  intros Hpq. induction s as [|c r IH]; [done|]. cbn [all_chars].
  intros [Hc Hr]%andb_true_iff. by rewrite (Hpq _ Hc), IH.
Qed.


Lemma lstrip_by_all (p sp : ascii -> bool) s :
  (forall c, p c = true -> sp c = false) ->
  all_chars p s = true -> Str.lstrip_by sp s = s.
Proof.
  intros Hp. destruct s as [|c r]; [done|]. cbn [all_chars Str.lstrip_by].
  intros [Hc _]%andb_true_iff. by rewrite (Hp _ Hc).
Qed.

Lemma rstrip_by_all (p sp : ascii -> bool) s :
  (forall c, p c = true -> sp c = false) ->
  all_chars p s = true -> Str.rstrip_by sp s = s.
Proof.
  intros Hp. induction s as [|c r IH]; [done|]. cbn [all_chars Str.rstrip_by].
  intros [Hc Hr]%andb_true_iff. rewrite (IH Hr), (Hp _ Hc). by destruct r.
Qed.

Lemma all_digits_string_of_uint d :
  all_chars Str.isdigit (NilZero.string_of_uint d) = true.
Proof.
  assert (H : all_chars Str.isdigit (NilEmpty.string_of_uint d) = true)
    by (induction d; cbn [NilEmpty.string_of_uint all_chars]; eval_digit; done).
  by destruct d.
Qed.

Lemma string_of_uint_nonempty d : NilZero.string_of_uint d <> "".
Proof. by destruct d. Qed.


Lemma digit_or_minus_not_space c : digit_or_minus c = true -> Str.c_isspace c = false.
Proof. by destruct c as [[] [] [] [] [] [] [] []]. Qed.

Lemma int_string_of_int i : int (NilZero.string_of_int i) = Some (Z.of_int i).
Proof.
  assert (Hall : all_chars digit_or_minus (NilZero.string_of_int i) = true).
  { destruct i as [d|d]; cbn [NilZero.string_of_int all_chars].
    - eapply all_chars_impl; [|apply all_digits_string_of_uint].
      intros c Hc. unfold digit_or_minus. by rewrite Hc.
    - cbn. eapply all_chars_impl; [|apply all_digits_string_of_uint].
      intros c Hc. unfold digit_or_minus. by rewrite Hc. }
  unfold int.
  rewrite (lstrip_by_all _ _ _ digit_or_minus_not_space Hall).
  rewrite (rstrip_by_all _ _ _ digit_or_minus_not_space Hall).
  destruct i as [d|d]; cbn [NilZero.string_of_int Z.of_int].
  - pose proof (all_digits_string_of_uint d) as Hd.
    pose proof (string_of_uint_nonempty d) as Hne.
    rewrite <- int_unsigned_string_of_uint.
    destruct (NilZero.string_of_uint d) as [|c r]; [done|].
    cbn [all_chars] in Hd. apply andb_true_iff in Hd as [Hc _].
    destruct (Ascii.eqb_spec c "-") as [->|]; [done|].
    destruct (Ascii.eqb_spec c "+") as [->|]; done.
  - change (Ascii.eqb "-" "-") with true. cbv iota.
    by rewrite int_unsigned_string_of_uint.
Qed.

(** [int] reads back what [str] prints. *)
Lemma int_str n : int (str (PInt n)) = Some n.
Proof. cbn [str]. by rewrite int_string_of_int, DecimalZ.of_to. Qed.

(** *** [split] undoes [join] *)


Lemma append_nil s : "" +:+ s = s.
Proof. reflexivity. Qed.

Lemma append_cons c r s : String c r +:+ s = String c (r +:+ s).
Proof. reflexivity. Qed.



Lemma contains_append c s t :
  Str.contains c (s +:+ t) = Str.contains c s || Str.contains c t.
Proof.
  induction s as [|a r IH]; [done|]. rewrite append_cons, !contains_cons, IH.
  by rewrite orb_assoc.
Qed.








(** ** After the import *)

(** X9. After a successful import every option stored under
    [[DEFAULT]] is a recognized key (an unknown one stops the import in
    the dump loop), and [_get] returns a value for each of the five
    recognized keys. *)
Theorem after_import_get_returns userhome file parser :
  module_init userhome file = Ok parser ->
  dom (_defaults parser) ⊆ dom (_DEFAULTS userhome) /\
  forall key, key ∈ dom (_DEFAULTS userhome) -> is_Ok (_get userhome parser key).
Proof.
  intros (sectdict & Hsec & Hopts)%module_init_Ok. split.
  - intros option Hin. apply Hopts. rewrite dom_union. apply elem_of_union. by right.
  - intros key Hkey.
    destruct ((sectdict ∪ _defaults parser) !! key) as [v|] eqn:Hlookup.
    + apply Hopts, elem_of_dom. by exists v.
    + destruct (recognized_default _ _ Hkey) as [default Hdefault].
      exists default. rewrite (_get_main userhome parser sectdict) by done.
      by rewrite Hdefault, (recognized_optionxform _ _ Hkey), Hlookup.
Qed.

Lemma after_import_witness :
  dom (_defaults {| _defaults := {[_LOG_LEVEL := "ERROR"]};
                    _sections := {[_MAIN_SECTION_NAME := ∅]} |})
    ⊆ dom (_DEFAULTS (Some "/home/user")) /\
  forall key, key ∈ dom (_DEFAULTS (Some "/home/user")) ->
    is_Ok (_get (Some "/home/user")
             {| _defaults := {[_LOG_LEVEL := "ERROR"]};
                _sections := {[_MAIN_SECTION_NAME := ∅]} |} key).
Proof.
  apply (after_import_get_returns (Some "/home/user")
           (Some ["[DEFAULT]"; "log_level = ERROR"])).
  vm_compute. reflexivity.
Defined.

(** X10. The import serves what the file says: a recognized option of
    the file's [main] section whose value has no percent sign is what
    [_get] returns for that key after a successful import. *)
Theorem import_serves_file_value userhome file parser0 parser key v :
  ConfigParser_read file = Ok parser0 ->
  module_init userhome file = Ok parser ->
  key ∈ dom (_DEFAULTS userhome) ->
  main_section parser0 !! key = Some v ->
  Str.contains "%" v = false ->
  _get userhome parser key = Ok v.
Proof.
  intros Hread Hinit Hkey Hv Hpercent.
  pose proof (module_init_prunes userhome _ _ _ Hread Hinit key) as Hmain.
  rewrite decide_True, Hv in Hmain by done.
  apply module_init_Ok in Hinit as (sectdict & Hsec & _).
  unfold main_section in Hmain. rewrite Hsec in Hmain. cbn in Hmain.
  destruct (recognized_default _ _ Hkey) as [default Hdefault].
  rewrite (_get_main userhome parser sectdict) by done.
  rewrite Hdefault, (recognized_optionxform _ _ Hkey).
  rewrite (lookup_union_Some_l _ _ _ _ Hmain). by apply before_get_no_percent.
Qed.

Lemma import_serves_file_value_witness :
  _get (Some "/home/user")
    {| _defaults := ∅; _sections := {[_MAIN_SECTION_NAME := {[_WWW_SERVER_PORT := "8080"]}]} |}
    _WWW_SERVER_PORT = Ok "8080".
Proof.
  apply (import_serves_file_value (Some "/home/user")
           (Some ["[main]"; "Www_Server_Port = 8080"; "colour = blue"])
           {| _defaults := ∅;
              _sections := {[_MAIN_SECTION_NAME :=
                               {[_WWW_SERVER_PORT := "8080"; "colour" := "blue"]}]} |}).
  - vm_compute. reflexivity.
  - vm_compute. reflexivity.
  - apply elem_of_dom. exists "8000". vm_compute. reflexivity.
  - vm_compute. reflexivity.
  - vm_compute. reflexivity.
Defined.

(** * Properties of the preferences dialog *)

Section DialogProperties.

Variable userhome : option string.



Lemma all_digits_int s :
  all_chars Str.isdigit s = true ->
  forall acc, exists n, int_digits acc s = Some n.
Proof.
  induction s as [|c r IH]; intros H acc; [by exists acc|].
  cbn [all_chars] in H. apply andb_true_iff in H as [Hc Hr].
  cbn [int_digits]. rewrite Hc. by apply IH.
Qed.

Lemma isdigit_not_space c : Str.isdigit c = true -> Str.c_isspace c = false.
Proof. by destruct c as [[] [] [] [] [] [] [] []]. Qed.

(** [int] reads every text [str.isdigit] accepts: [accept] never leaves
    through the conversion. *)
Lemma str_isdigit_int s : str_isdigit s = true -> exists n, int s = Some n.
Proof.
  unfold str_isdigit. intros [Hne Hall]%andb_true_iff. unfold int.
  rewrite (lstrip_by_all _ _ _ isdigit_not_space Hall).
  rewrite (rstrip_by_all _ _ _ isdigit_not_space Hall).
  destruct s as [|c r]; [done|].
  cbn [all_chars] in Hall. apply andb_true_iff in Hall as [Hc Hr].
  destruct (Ascii.eqb_spec c "-") as [->|]; [done|].
  destruct (Ascii.eqb_spec c "+") as [->|]; [done|].
  cbn [int_unsigned]. rewrite Hc. by apply all_digits_int.
Qed.



End DialogProperties.




(** X13. [accept] cannot tell a failed [save] from a successful one:
    when writing the file raises [OSError] the slot ends as it does when
    the file is written, with the same outcome and the same
    configuration in memory, so a dialog that would close closes without
    the settings being on disk. *)
Theorem accept_ignores_save_failure userhome parser _ui strerror :
  fst (PreferencesDialog_accept userhome parser _ui (WriteRaises (OSError strerror)))
  = fst (PreferencesDialog_accept userhome parser _ui Written).
Proof.
  unfold PreferencesDialog_accept.
  destruct (set_scan_folder_path _ _ _) as [parser1|]; [|done].
  destruct (set_work_folder_path _ _ _) as [parser2|]; [|done].
  cbv zeta. destruct (str_isdigit _); [|done].
  destruct (int _) as [n|]; [|done].
  destruct (_ && _); [|done].
  destruct (set_www_server_port_number _ _ _) as [parser3|]; [|done].
  by destruct (set_debug_log _ _ _) as [parser4|].
Qed.

Lemma str_isdigit_str_int n : (0 <= n)%Z -> str_isdigit (str (PInt n)) = true.
Proof.
  intros Hn. unfold str_isdigit. cbn [str].
  destruct n as [|p|p]; [done| |lia]. cbn [Z.to_int NilZero.string_of_int].
  rewrite all_digits_string_of_uint.
  by destruct (NilZero.string_of_uint (Pos.to_uint p)) eqn:E;
    [apply string_of_uint_nonempty in E|].
Qed.

(** X14. Opening the dialog and accepting it untouched changes nothing
    in memory when the port read is the decimal text of a number from
    1024 to 65535 and the log level is [DEBUG] or [INFO]: every setter
    is handed the value [_get] returns and writes nothing; [save] is
    still called. *)
Theorem open_then_accept_changes_nothing userhome parser _ui io n level :
  PreferencesDialog_init userhome parser = Ok _ui ->
  _get userhome parser _WWW_SERVER_PORT = Ok (str (PInt n)) ->
  (1024 <= n <= 65535)%Z ->
  _get userhome parser _LOG_LEVEL = Ok level ->
  level = "DEBUG" \/ level = "INFO" ->
  io = Written \/ (exists strerror, io = WriteRaises (OSError strerror)) ->
  PreferencesDialog_accept userhome parser _ui io
    = (Accepted, parser, snd (save parser io)).
Proof.
  intros Hinit Hport Hrange Hlevel Hlevels Hio.
  unfold PreferencesDialog_init, get_scan_folder_path, get_work_folder_path,
    get_www_server_port_number, is_debug_log_on in Hinit.
  apply bind_Ok in Hinit as (scan & Hscan & Hinit).
  apply bind_Ok in Hinit as (work & Hwork & Hinit).
  rewrite Hport, Hlevel in Hinit. cbn [mbind result_bind] in Hinit.
  rewrite int_str in Hinit. injection Hinit as <-.
  unfold PreferencesDialog_accept, set_scan_folder_path, set_work_folder_path,
    set_www_server_port_number, set_debug_log, _set.
  cbn [ln_scan_folder_path ln_work_folder_path ln_web_server_port chk_debug_logs].
  rewrite Hscan. cbn [mbind result_bind py_ne]. rewrite String.eqb_refl. cbn [negb].
  rewrite Hwork. cbn [mbind result_bind py_ne]. rewrite String.eqb_refl. cbn [negb].
  cbv zeta. change (NilZero.string_of_int (Z.to_int n)) with (str (PInt n)).
  rewrite str_isdigit_str_int by lia. rewrite int_str.
  destruct (Z.leb_spec 1024 n), (Z.leb_spec n 65535); try lia. cbn [andb].
  rewrite Hport. cbn [mbind result_bind py_ne]. rewrite String.eqb_refl. cbn [negb].
  cbn [truthy]. rewrite Hlevel.
  by destruct Hlevels as [-> | ->], Hio as [->|[strerror ->]].
Qed.

Lemma open_then_accept_witness :
  PreferencesDialog_accept (Some "/home/user") empty_parser
    {| ln_scan_folder_path := "/home/user/als/scan";
       ln_work_folder_path := "/home/user/als/work";
       ln_web_server_port := "8000"; chk_debug_logs := false |} Written
  = (Accepted, empty_parser, snd (save empty_parser Written)).
Proof.
  apply (open_then_accept_changes_nothing (Some "/home/user") empty_parser
           _ Written 8000%Z "INFO").
  - vm_compute. reflexivity.
  - vm_compute. reflexivity.
  - lia.
  - vm_compute. reflexivity.
  - by right.
  - by left.
Defined.

(** * Edge cases *)

Lemma remove_escaped_percent_cons a b t :
  Str.remove_escaped_percent (String a (String b t)) =
    if Ascii.eqb a "%" && Ascii.eqb b "%" then Str.remove_escaped_percent t
    else String a (Str.remove_escaped_percent (String b t)).
Proof. reflexivity. Qed.

Lemma KEYCRE_sub_cons a r :
  KEYCRE_sub 0 (String a r) =
    match KEYCRE_match (String a r) with
    | Some (_, m_end) => KEYCRE_sub (m_end - 1) r
    | None => String a (KEYCRE_sub 0 r)
    end.
Proof. reflexivity. Qed.

Lemma KEYCRE_match_not_percent a r :
  Ascii.eqb a "%" = false -> KEYCRE_match (String a r) = None.
Proof. intros Ha. unfold KEYCRE_match. destruct r; [done|]. by rewrite Ha. Qed.

Lemma before_set_lone_percent prefix :
  Str.contains "%" prefix = false ->
  before_set (prefix +:+ "%") = Raise (ValueError None).
Proof.
  intros Hprefix.
  assert (H : Str.remove_escaped_percent (prefix +:+ "%") = prefix +:+ "%" /\
              KEYCRE_sub 0 (prefix +:+ "%") = prefix +:+ "%").
  { induction prefix as [|a r IH]; [done|].
    rewrite contains_cons in Hprefix. apply orb_false_iff in Hprefix as [Ha Hr].
    destruct (IH Hr) as [IH1 IH2]. rewrite append_cons.
    assert (Hcons : exists b t, r +:+ "%" = String b t)
      by (destruct r; rewrite ?append_nil, ?append_cons; eauto).
    destruct Hcons as (b & t & Hbt). split.
    - rewrite Hbt, remove_escaped_percent_cons, Ha. cbn [andb].
      by rewrite <- Hbt, IH1.
    - by rewrite KEYCRE_sub_cons, (KEYCRE_match_not_percent _ _ Ha), IH2. }
  destruct H as [H1 H2]. unfold before_set. rewrite H1, H2, contains_append.
  by rewrite orb_true_r.
Qed.

(** X15. A scan folder path that ends in a percent sign, its only one,
    and differs from the current path makes [accept] leave with the
    [ValueError] of [ConfigParser.set]: nothing is stored, validated,
    shown or saved. *)
Theorem accept_raises_on_lone_percent userhome parser _ui io prefix current :
  ln_scan_folder_path _ui = prefix +:+ "%" ->
  Str.contains "%" prefix = false ->
  _get userhome parser _SCAN_FOLDER_PATH = Ok current ->
  current <> prefix +:+ "%" ->
  PreferencesDialog_accept userhome parser _ui io
    = (Raised (ValueError None), parser, []).
Proof.
  intros Htext Hprefix Hget Hne.
  unfold PreferencesDialog_accept, set_scan_folder_path, _set.
  rewrite Htext, Hget. cbn [mbind result_bind py_ne].
  assert (String.eqb (prefix +:+ "%") current = false) as ->
    by (apply String.eqb_neq; congruence).
  cbn [negb]. unfold ConfigParser_set.
  assert (String.eqb (prefix +:+ "%") "" = false) as ->
    by (apply String.eqb_neq; destruct prefix; discriminate).
  by rewrite before_set_lone_percent.
Qed.

Lemma accept_raises_on_lone_percent_witness :
  PreferencesDialog_accept (Some "/home/user") empty_parser
    {| ln_scan_folder_path := "/data/100%"; ln_work_folder_path := "/data/work";
       ln_web_server_port := "8080"; chk_debug_logs := false |} Written
  = (Raised (ValueError None), empty_parser, []).
Proof.
  apply (accept_raises_on_lone_percent (Some "/home/user") empty_parser _ Written
           "/data/100" "/home/user/als/scan").
  - reflexivity.
  - reflexivity.
  - vm_compute. reflexivity.
  - discriminate.
Defined.



(** X17. In every state of the module where the geometry can be read,
    [set_window_geometry] with the empty tuple returns, and
    [get_window_geometry] raises [ValueError] from then on: the joined
    value is the empty string, whose only segment is no integer. *)
Theorem set_empty_geometry_breaks_get userhome file parser current :
  reachable userhome file parser ->
  _get userhome parser _WINDOW_GEOMETRY = Ok current ->
  exists parser',
    set_window_geometry userhome parser [] = Ok parser' /\
    get_window_geometry userhome parser' = Raise (ValueError None).
Proof.
  intros Hreach%reachable_has_main Hget.
  destruct (setter_keys_recognized userhome) as (_ & _ & _ & _ & Hgeo).
  destruct (_set_then_get userhome parser _WINDOW_GEOMETRY current "")
    as (parser' & Hset & Hget' & _); try done.
  exists parser'. split; [done|]. unfold get_window_geometry. by rewrite Hget'.
Qed.

Lemma set_empty_geometry_witness :
  exists parser',
    set_window_geometry (Some "/home/user") empty_parser [] = Ok parser' /\
    get_window_geometry (Some "/home/user") parser' = Raise (ValueError None).
Proof.
  apply (set_empty_geometry_breaks_get (Some "/home/user") None empty_parser
           "50,100,1024,800").
  - apply reachable_init. reflexivity.
  - vm_compute. reflexivity.
Defined.
